(** * A shallow embedding of nagarajjan/dashboard

    Two Python files:
    - [src/Dashboard/rag_setup.py]: [create_rag_chain] loads a PDF, splits it
      with a [RecursiveCharacterTextSplitter(chunk_size=1000,
      chunk_overlap=200)], indexes the chunks in Chroma and wraps the result in
      a [RetrievalQA] chain;
    - [src/Dashboard/app.py]: the module-level startup block that builds the
      global [rag_chain] (or sets it to [None]), and the two Dash callbacks
      [update_response] and [download_pdf].

    Python exceptions are modelled by their class MRO, so that
    [except Exception] and [except ImportError] match exactly the classes
    Python matches.  Text is modelled as [string] (8-bit code points); Python's
    [len] is [String.length]. *)

From Stdlib Require Import String Ascii List Bool Arith Lia.
Import ListNotations.
Open Scope string_scope.
Open Scope nat_scope.

(** ** Python exceptions and results *)

(** A raised exception: the MRO of its class (most derived first) and [str(e)]. *)
Record PyExn := mkExn { exn_mro : list string; exn_str : string }.

(** [isinstance(e, cls)] *)
Definition isinstance (e : PyExn) (cls : string) : bool :=
  existsb (String.eqb cls) (exn_mro e).

Definition ValueError (msg : string) : PyExn :=
  mkExn ["ValueError"; "Exception"; "BaseException"] msg.
Definition FileNotFoundError (msg : string) : PyExn :=
  mkExn ["FileNotFoundError"; "OSError"; "Exception"; "BaseException"] msg.
Definition ImportError (msg : string) : PyExn :=
  mkExn ["ImportError"; "Exception"; "BaseException"] msg.
Definition ModuleNotFoundError (msg : string) : PyExn :=
  mkExn ["ModuleNotFoundError"; "ImportError"; "Exception"; "BaseException"] msg.
(** [str(KeyError(k))] is the repr of the key. *)
Definition KeyError (key : string) : PyExn :=
  mkExn ["KeyError"; "LookupError"; "Exception"; "BaseException"]
        ("'" ++ key ++ "'").
(** Derives from [BaseException] only, not from [Exception]. *)
Definition KeyboardInterrupt : PyExn :=
  mkExn ["KeyboardInterrupt"; "BaseException"] "".

Inductive PyResult (A : Type) : Type :=
| Ok (a : A)
| Exc (e : PyExn).
Arguments Ok {A} a.
Arguments Exc {A} e.

(** ** Observable effects and a small state/error monad

    The log records every call the code makes to an external collaborator
    (module import, PDF loader, vector-store build, retrieval, LLM) and every
    line written to stderr. *)
Inductive Call : Type :=
| CallImport (module : string)
| CallLoad (path : string)
| CallBuild (nchunks : nat)
| CallSearch (query : string) (k : nat)
| CallLLM (prompt : string)
| CallStderr (line : string)
| CallToImage
| CallPdfReport.

Definition M (A : Type) : Type := list Call -> PyResult A * list Call.

Definition ret {A} (a : A) : M A := fun log => (Ok a, log).
Definition raise {A} (e : PyExn) : M A := fun log => (Exc e, log).
Definition bind {A B} (m : M A) (k : A -> M B) : M B :=
  fun log =>
    match m log with
    | (Ok a, log') => k a log'
    | (Exc e, log') => (Exc e, log')
    end.
Notation "x <- m ;; k" := (bind m (fun x => k))
  (at level 61, m at next level, right associativity).
Notation "m ;;; k" := (bind m (fun _ => k))
  (at level 61, right associativity).

(** Perform an external call whose Python outcome is [r]. *)
Definition call {A} (c : Call) (r : PyResult A) : M A :=
  fun log => (r, (log ++ [c])%list).

(** [try: m except ...]: [handlers e] is the body of the first [except]
    clause matching [e], or [None] when no clause matches (re-raise). *)
Definition try_except {A} (m : M A) (handlers : PyExn -> option (M A)) : M A :=
  fun log =>
    match m log with
    | (Exc e, log') =>
        match handlers e with
        | Some h => h log'
        | None => (Exc e, log')
        end
    | r => r
    end.

(** ** Documents *)

(** [langchain_core.documents.Document] *)
Record Document := mkDoc { page_content : string; metadata : list (string * string) }.

(** ** The text splitter configured by [create_rag_chain]

    [create_rag_chain] builds
    [RecursiveCharacterTextSplitter(chunk_size=1000, chunk_overlap=200)] and
    calls [split_documents].  The splitter is the library's (langchain
    [text_splitter]); its algorithm is written out below function by function
    ([_split_text_with_regex], [_join_docs], [_merge_splits], [_split_text],
    [create_documents]), with the constructor's defaults
    [separators=["\n\n", "\n", " ", ""]], [keep_separator=True],
    [strip_whitespace=True], [is_separator_regex=False],
    [length_function=len]. *)

Record TextSplitter := mkSplitter {
  _chunk_size : nat;
  _chunk_overlap : nat;
  _separators : list string;
  _keep_separator : bool;
  _strip_whitespace : bool
}.

Definition nl : string := String (ascii_of_nat 10) "".

Definition RecursiveCharacterTextSplitter (chunk_size chunk_overlap : nat) : TextSplitter :=
  mkSplitter chunk_size chunk_overlap [nl ++ nl; nl; " "; ""] true true.

(** *** String helpers with Python's meaning *)

(** [c.isspace()] for code points below 256. *)
Definition is_space (c : ascii) : bool :=
  let n := nat_of_ascii c in
  ((9 <=? n) && (n <=? 13)) || ((28 <=? n) && (n <=? 32)) || (n =? 133) || (n =? 160).

Fixpoint lstrip (s : string) : string :=
  match s with
  | EmptyString => EmptyString
  | String c r => if is_space c then lstrip r else s
  end.

Fixpoint rstrip (s : string) : string :=
  match s with
  | EmptyString => EmptyString
  | String c r =>
      let r' := rstrip r in
      if String.eqb r' "" && is_space c then "" else String c r'
  end.

(** [s.strip()] *)
Definition strip (s : string) : string := rstrip (lstrip s).

(** [re.search(re.escape(sep), text) is not None] for a non-empty [sep]. *)
Fixpoint re_search (sep text : string) : bool :=
  prefix sep text ||
  match text with
  | EmptyString => false
  | String _ r => re_search sep r
  end.

(** [re.split(re.escape(sep), text)] for a non-empty [sep]: the pieces
    between leftmost non-overlapping occurrences.  [skip] counts the
    characters of a matched occurrence still to be consumed; [cur] is the
    piece being read. *)
Fixpoint split_on_aux (sep : string) (text : string) (skip : nat) (cur : string)
  : list string :=
  match text with
  | EmptyString => [cur]
  | String c r =>
      match skip with
      | S k => split_on_aux sep r k cur
      | O =>
          if prefix sep text
          then cur :: split_on_aux sep r (String.length sep - 1) ""
          else split_on_aux sep r 0 (cur ++ String c "")
      end
  end.

Definition split_on (sep text : string) : list string := split_on_aux sep text 0 "".

(** [list(text)] *)
Fixpoint chars (s : string) : list string :=
  match s with
  | EmptyString => []
  | String c r => String c "" :: chars r
  end.

(** [_split_text_with_regex(text, re.escape(separator), keep_separator)]:
    with [keep_separator] each separator is glued to the start of the piece
    that follows it; empty pieces are dropped. *)
Definition split_text_with_regex (text separator : string) (keep_separator : bool)
  : list string :=
  let splits :=
    if String.eqb separator "" then chars text
    else
      match split_on separator text with
      | [] => []
      | p0 :: ps =>
          if keep_separator then p0 :: map (fun p => separator ++ p) ps
          else p0 :: ps
      end in
  filter (fun s => negb (String.eqb s "")) splits.

(** [_join_docs(docs, separator)] *)
Definition join_docs (ts : TextSplitter) (docs : list string) (separator : string)
  : option string :=
  let text := String.concat separator docs in
  let text := if _strip_whitespace ts then strip text else text in
  if String.eqb text "" then None else Some text.

Definition opt_list {A} (o : option A) : list A :=
  match o with Some a => [a] | None => [] end.

(** The [while] loop of [_merge_splits] that drops splits from the front of
    [current_doc] until at most [chunk_overlap] characters remain and the next
    split fits:
    [while total > chunk_overlap or
           (total + _len + (separator_len if len(current_doc) > 0 else 0)
              > chunk_size and total > 0)]. *)
Fixpoint pop_front (ts : TextSplitter) (separator_len _len : nat)
  (current_doc : list string) (total : nat) : list string * nat :=
  match current_doc with
  | [] => ([], total)
  | first :: rest =>
      if (_chunk_overlap ts <? total)
         || ((_chunk_size ts <? total + _len + separator_len) && (0 <? total))
      then pop_front ts separator_len _len rest
             (total - (String.length first
                       + (match rest with [] => 0 | _ => separator_len end)))
      else (current_doc, total)
  end.

(** The [for d in splits] loop of [_merge_splits]; [docs], [current_doc] and
    [total] are the loop's variables. *)
Fixpoint merge_loop (ts : TextSplitter) (separator : string) (splits : list string)
  (docs current_doc : list string) (total : nat) : list string :=
  match splits with
  | [] => docs ++ opt_list (join_docs ts current_doc separator)
  | d :: rest =>
      let separator_len := String.length separator in
      let _len := String.length d in
      let '(docs, current_doc, total) :=
        if _chunk_size ts <? total + _len
                              + (match current_doc with [] => 0 | _ => separator_len end)
        then
          match current_doc with
          | [] => (docs, current_doc, total)
          | _ =>
              let docs := docs ++ opt_list (join_docs ts current_doc separator) in
              let '(current_doc, total) :=
                pop_front ts separator_len _len current_doc total in
              (docs, current_doc, total)
          end
        else (docs, current_doc, total) in
      let current_doc := current_doc ++ [d] in
      let total := total + _len
                   + (match current_doc with _ :: _ :: _ => separator_len | _ => 0 end) in
      merge_loop ts separator rest docs current_doc total
  end%list.

(** [_merge_splits(splits, separator)] *)
Definition merge_splits (ts : TextSplitter) (splits : list string) (separator : string)
  : list string :=
  merge_loop ts separator splits [] [] 0.

(** The loop of [_split_text] over the splits: [good] is [_good_splits],
    [final] is [final_chunks]; [recurse] is [Some (self._split_text(.,
    new_separators))], or [None] when [new_separators] is empty. *)
Fixpoint split_loop (ts : TextSplitter) (merge_separator : string)
  (recurse : option (string -> list string))
  (splits : list string) (good final : list string) : list string :=
  match splits with
  | [] =>
      match good with
      | [] => final
      | _ => final ++ merge_splits ts good merge_separator
      end
  | s :: rest =>
      if String.length s <? _chunk_size ts
      then split_loop ts merge_separator recurse rest (good ++ [s]) final
      else
        let final :=
          match good with
          | [] => final
          | _ => final ++ merge_splits ts good merge_separator
          end in
        let final :=
          match recurse with
          | None => final ++ [s]
          | Some f => final ++ f s
          end in
        split_loop ts merge_separator recurse rest [] final
  end%list.

(** The body of [_split_text] once [separator] and [new_separators] are
    chosen. *)
Definition split_with (ts : TextSplitter) (separator : string)
  (recurse : option (string -> list string)) (text : string) : list string :=
  let splits := split_text_with_regex text separator (_keep_separator ts) in
  let merge_separator := if _keep_separator ts then "" else separator in
  split_loop ts merge_separator recurse splits [] [].

(** [_split_text(text, separators)]: the first separator that is [""] or
    occurs in [text] is chosen, and [new_separators] are the ones after it;
    when the [for] loop ends without [break], [separator] keeps its initial
    value [separators[-1]] (here [last_sep]) and [new_separators] is empty. *)
Fixpoint split_text_rec (ts : TextSplitter) (separators : list string)
  (last_sep : string) (text : string) : list string :=
  match separators with
  | [] => split_with ts last_sep None text
  | s :: rest =>
      if String.eqb s "" then split_with ts "" None text
      else if re_search s text then
        split_with ts s
          (match rest with
           | [] => None
           | _ => Some (split_text_rec ts rest last_sep)
           end) text
      else split_text_rec ts rest last_sep text
  end.

(** [split_text(text)] *)
Definition split_text (ts : TextSplitter) (text : string) : list string :=
  split_text_rec ts (_separators ts) (last (_separators ts) "") text.

(** [split_documents(documents)], through [create_documents]: every chunk
    carries a copy of its page's metadata. *)
Definition split_documents (ts : TextSplitter) (documents : list Document)
  : list Document :=
  flat_map (fun d => map (fun chunk => mkDoc chunk (metadata d))
                         (split_text ts (page_content d))) documents.


(** ** External collaborators

    The code of the libraries the repository calls, other than the text
    splitter, is not modelled: it is a parameter.  Each field is the Python
    outcome of one library call; any of them may raise any exception. *)
Record Backend (Store Figure Bytes : Type) := mkBackend {
  (** [from rag_setup import create_rag_chain]: [None] when the import
      succeeds, [Some e] when it raises [e]. *)
  import_rag_setup : option PyExn;
  (** [PyPDFLoader(path).load()] *)
  PyPDFLoader_load : string -> PyResult (list Document);
  (** [Chroma.from_documents(documents=texts,
      embedding=OllamaEmbeddings(model=m))] *)
  Chroma_from_documents : list Document -> string -> PyResult Store;
  (** the retriever of [vectorstore.as_retriever()]: the top [k] documents
      for a query *)
  similarity_search : Store -> string -> nat -> PyResult (list Document);
  (** the prompt of the ["stuff"] chain for the retrieved documents and the
      question *)
  stuff_prompt : list Document -> string -> string;
  (** [Ollama(model=m)] called on a prompt *)
  Ollama_generate : string -> string -> PyResult string;
  (** [pio.to_image(graph_figure, format="png")] *)
  pio_to_image : Figure -> PyResult Bytes;
  (** [create_pdf_report(img_bytes, rag_response_text).getvalue()]
      (reportlab) *)
  pdf_report : Bytes -> string -> PyResult Bytes
}.

Arguments import_rag_setup {Store Figure Bytes} b.
Arguments PyPDFLoader_load {Store Figure Bytes} b.
Arguments Chroma_from_documents {Store Figure Bytes} b.
Arguments similarity_search {Store Figure Bytes} b.
Arguments stuff_prompt {Store Figure Bytes} b.
Arguments Ollama_generate {Store Figure Bytes} b.
Arguments pio_to_image {Store Figure Bytes} b.
Arguments pdf_report {Store Figure Bytes} b.

(** Dash's [dash.no_update] or a new value for a callback output. *)
Inductive Update (A : Type) : Type :=
| no_update
| set (a : A).
Arguments no_update {A}.
Arguments set {A} a.

(** The children of the [rag-response] Div: the initial text, or an
    [html.P(text, style={'color': c})] ([None] when there is no style). *)
Inductive Children : Type :=
| Text (s : string)
| P (s : string) (color : option string).

(** Python truthiness of the [question-input] value ([None] or a string). *)
Definition truthy (q : option string) : bool :=
  match q with
  | None => false
  | Some s => negb (String.eqb s "")
  end.

Definition not_initialized_display : string :=
  "RAG system not initialized. Check server logs for errors.".
Definition not_initialized_store : string := "RAG system not initialized.".
Definition DOCUMENT_PATH : string := "external_doc.pdf".

(** What [update_response] returns while [rag_chain is None]. *)
Definition degraded_response : Update Children * Update string * string :=
  (set (P not_initialized_display (Some "red")), set not_initialized_store, "").

Section Dashboard.

Context {Store Figure Bytes : Type} (B : Backend Store Figure Bytes).

(** The [RetrievalQA] chain built by [create_rag_chain]: its LLM's model
    name, its vector store and the retriever's [k]. *)
Record RetrievalQA := mkQA { qa_llm : string; qa_store : Store; qa_k : nat }.

(** *** [rag_setup.py] *)

(** [create_rag_chain(document_path)] *)
Definition create_rag_chain (document_path : string) : M RetrievalQA :=
  documents <- call (CallLoad document_path) (PyPDFLoader_load B document_path) ;;
  let text_splitter := RecursiveCharacterTextSplitter 1000 200 in
  let texts := split_documents text_splitter documents in
  let embeddings := "llama3.1" in
  vectorstore <- call (CallBuild (List.length texts))
                      (Chroma_from_documents B texts embeddings) ;;
  (* as_retriever() keeps the default search_kwargs, k = 4 *)
  let llm := "llama3.1" in
  ret (mkQA llm vectorstore 4).

(** [qa_chain.invoke({"query": question})]: retrieve, then generate; the
    result is the chain's output dict. *)
Definition RetrievalQA_invoke (qa : RetrievalQA) (question : string)
  : M (list (string * string)) :=
  docs <- call (CallSearch question (qa_k qa))
               (similarity_search B (qa_store qa) question (qa_k qa)) ;;
  let prompt := stuff_prompt B docs question in
  answer <- call (CallLLM prompt) (Ollama_generate B (qa_llm qa) prompt) ;;
  ret [("query", question); ("result", answer)].

(** [d[key]] on a dict with string values. *)
Definition dict_getitem (d : list (string * string)) (key : string) : M string :=
  match find (fun kv => String.eqb (fst kv) key) d with
  | Some (_, v) => ret v
  | None => raise (KeyError key)
  end.

(** *** [app.py]: the module-level startup block

    [try: from rag_setup import create_rag_chain;
          rag_chain = create_rag_chain(DOCUMENT_PATH)
     except FileNotFoundError: print(...); rag_chain = None
     except ImportError: print(...); rag_chain = None]

    An exception matched by neither clause propagates out of the module. *)
Definition startup_body : M (option RetrievalQA) :=
  call (CallImport "rag_setup")
       (match import_rag_setup B with None => Ok tt | Some e => Exc e end) ;;;
  rag_chain <- create_rag_chain DOCUMENT_PATH ;;
  ret (Some rag_chain).

Definition startup_handlers (e : PyExn) : option (M (option RetrievalQA)) :=
  if isinstance e "FileNotFoundError" then
    Some (call (CallStderr ("ERROR: Document '" ++ DOCUMENT_PATH
                            ++ "' not found. Please add it to the project directory."))
               (Ok None))
  else if isinstance e "ImportError" then
    Some (call (CallStderr "ERROR: rag_setup.py not found. Please ensure it's in the project directory.")
               (Ok None))
  else None.

Definition app_startup : M (option RetrievalQA) :=
  try_except startup_body startup_handlers.

(** *** [app.py]: the callbacks *)

(** [update_response(n_clicks, question)]; outputs are the [rag-response]
    children, the [rag-response-store] data and the [question-input] value. *)
Definition update_response (rag_chain : option RetrievalQA) (n_clicks : option nat)
  (question : option string) : M (Update Children * Update string * string) :=
  match rag_chain with
  | None =>
      ret (set (P not_initialized_display (Some "red")), set not_initialized_store, "")
  | Some qa =>
      match question with
      | Some q =>
          if truthy question then
            try_except
              (response <- RetrievalQA_invoke qa q ;;
               response_text <- dict_getitem response "result" ;;
               ret (set (P response_text None), set response_text, ""))
              (fun e =>
                 if isinstance e "Exception" then
                   let error_message := "An error occurred: " ++ exn_str e in
                   Some (ret (set (P error_message (Some "red")), set error_message, ""))
                 else None)
          else ret (no_update, no_update, "")
      | None => ret (no_update, no_update, "")
      end
  end.

(** [download_pdf(n_clicks, graph_figure, rag_response_text)]; the output is
    [dcc.send_bytes(pdf_bytes, "analysis_report.pdf")], modelled as the bytes
    and the file name. *)
Definition download_pdf (n_clicks : option nat) (graph_figure : Figure)
  (rag_response_text : option string) : M (Update (Bytes * string)) :=
  match n_clicks, rag_response_text with
  | Some _, Some text =>
      if truthy rag_response_text then
        img_bytes <- call CallToImage (pio_to_image B graph_figure) ;;
        pdf <- call CallPdfReport (pdf_report B img_bytes text) ;;
        ret (set (pdf, "analysis_report.pdf"))
      else ret no_update
  | _, _ => ret no_update
  end.

(** *** The running dashboard

    The server-side [rag_chain] global and the client-side component
    properties the callbacks read or write. *)
Record Dashboard := mkDashboard {
  rag_chain : option RetrievalQA;
  main_graph : Figure;
  rag_response : Children;
  rag_response_store : option string;
  question_input : option string
}.

(** [app.layout = create_dashboard_layout(initial_figure, ...)]: the
    [rag-response-store] starts with no data. *)
Definition init_dashboard (rc : option RetrievalQA) (initial_figure : Figure) : Dashboard :=
  mkDashboard rc initial_figure (Text "Enter a question and click 'Submit'.") None None.

Inductive Event : Type :=
| TypeQuestion (s : string)
| ClickSubmit (n_clicks : option nat)
| ClickDownload (n_clicks : option nat).

Inductive Output : Type :=
| OutNone
| OutResponse (r : Update Children * Update string * string)
| OutDownload (d : Update (Bytes * string))
| OutError (e : PyExn).

Definition apply_update {A} (u : Update A) (old : A) : A :=
  match u with no_update => old | set a => a end.

(** Dash runs a callback and, when it raises, reports the error and leaves
    every output unchanged. *)
Definition dispatch {A} (m : M A) : M (PyResult A) :=
  fun log => let '(r, log') := m log in (Ok r, log').

Definition step (st : Dashboard) (ev : Event) : M (Dashboard * Output) :=
  match ev with
  | TypeQuestion s =>
      ret (mkDashboard (rag_chain st) (main_graph st) (rag_response st)
                       (rag_response_store st) (Some s), OutNone)
  | ClickSubmit n =>
      r <- dispatch (update_response (rag_chain st) n (question_input st)) ;;
      match r with
      | Ok (children, data, value) =>
          ret (mkDashboard (rag_chain st) (main_graph st)
                 (apply_update children (rag_response st))
                 (match data with no_update => rag_response_store st
                             | set s => Some s end)
                 (Some value),
               OutResponse (children, data, value))
      | Exc e => ret (st, OutError e)
      end
  | ClickDownload n =>
      r <- dispatch (download_pdf n (main_graph st) (rag_response_store st)) ;;
      match r with
      | Ok d => ret (st, OutDownload d)
      | Exc e => ret (st, OutError e)
      end
  end.

Fixpoint run (st : Dashboard) (evs : list Event) : M (Dashboard * list Output) :=
  match evs with
  | [] => ret (st, [])
  | ev :: evs' =>
      p <- step st ev ;;
      let '(st', o) := p in
      q <- run st' evs' ;;
      let '(st'', os) := q in
      ret (st'', o :: os)
  end.

End Dashboard.

(** *** [rag_setup.py]: the [__main__] test run

    [if not os.path.exists("external_doc.pdf"): print(...)
     else: rag_chain = create_rag_chain("external_doc.pdf");
           response = rag_chain.invoke({"query": question});
           print(response['result'])]

    [path_exists] is [os.path.exists]; the result is the line printed. *)
Definition rag_setup_main {Store Figure Bytes} (B : Backend Store Figure Bytes)
  (path_exists : string -> bool) : M string :=
  if negb (path_exists "external_doc.pdf") then
    ret "Please place your PDF document named 'external_doc.pdf' in the same directory."
  else
    rag_chain <- create_rag_chain B "external_doc.pdf" ;;
    let question := "What was the main topic of the document?" in
    response <- RetrievalQA_invoke B rag_chain question ;;
    dict_getitem response "result".

(** The [rag-response] Div and the [rag-response-store] agree: nothing
    asked yet, or the store holds the text displayed, or the pipeline is not
    initialised (the store then holds the short form of the message). *)
(** The dashboard shows the stored response [s]: the store holds [s] and
    the response Div displays it (the not-initialised message is displayed
    in its long form). *)
Definition shows_stored {Store Figure} (st : @Dashboard Store Figure) (s : string) : Prop :=
  rag_response_store st = Some s
  /\ ((exists c, rag_response st = P s c)
      \/ (s = not_initialized_store
          /\ rag_response st = P not_initialized_display (Some "red"))).

Definition is_submit (ev : Event) : bool :=
  match ev with ClickSubmit _ => true | _ => false end.

(** ** Properties stated by the specification *)

Fixpoint adjacent_pairs {A} (l : list A) : list (A * A) :=
  match l with
  | x :: ((y :: _) as t) => (x, y) :: adjacent_pairs t
  | _ => []
  end.

(** The last [overlap] characters of [c1] are the first [overlap] characters
    of [c2]. *)
Definition shares_overlap (overlap : nat) (c1 c2 : string) : bool :=
  (overlap <=? String.length c1)
  && String.eqb (substring (String.length c1 - overlap) overlap c1)
                (substring 0 overlap c2).

(** The chunker contract of the specification, for the splitter of
    [create_rag_chain] with the given parameters: every chunk is at most
    [chunk_size] long and consecutive chunks of one page share exactly
    [overlap] characters. *)
Definition chunker_contract (chunk_size overlap : nat) (pages : list Document) : Prop :=
  let chunks := split_documents (RecursiveCharacterTextSplitter chunk_size overlap) pages in
  Forall (fun c => String.length (page_content c) <= chunk_size) chunks
  /\ Forall (fun '(c1, c2) =>
               metadata c1 = metadata c2 ->
               shares_overlap overlap (page_content c1) (page_content c2) = true)
            (adjacent_pairs chunks).

(** Every string written to the [rag-response-store] by a run. *)
Definition stored_texts {Bytes} (outs : list (@Output Bytes)) : list string :=
  flat_map (fun o => match o with
                     | OutResponse (_, set s, _) => [s]
                     | _ => []
                     end) outs.

(** What an observer of a run sees: the outputs of the callbacks and the
    calls made. *)
Definition observed {A O} (x : PyResult (A * O) * list Call) : option O * list Call :=
  (match fst x with Ok (_, o) => Some o | Exc _ => None end, snd x).

Definition is_model_call (c : Call) : bool :=
  match c with CallSearch _ _ | CallLLM _ => true | _ => false end.

(** Total length of a list of splits: [total] in [_merge_splits]. *)
Fixpoint sum_len (l : list string) : nat :=
  match l with [] => 0 | s :: r => String.length s + sum_len r end.

(** [m] appends to the log only calls satisfying [ok]. *)
Definition extends {A} (ok : Call -> bool) (m : M A) : Prop :=
  forall log, exists extra,
    snd (m log) = (log ++ extra)%list /\ forallb ok extra = true.

Definition no_model_call (c : Call) : bool := negb (is_model_call c).

(** ** A concrete backend

    Library calls that behave as described by their arguments: the PDF loader
    returns [pages] for [DOCUMENT_PATH] (and, like [PyPDFLoader], raises
    [ValueError] for a path that is not a file), the vector store keeps its
    documents in order, the embedding build raises [build_error] when given
    and otherwise, like Chroma validating the embeddings it is given, raises
    [ValueError] for an empty list of documents, the retriever raises
    [search_error] when given. *)
Definition chroma_empty_error : PyExn :=
  ValueError "Expected Embedings to be non-empty list or numpy array, got [] in upsert.".

Definition pdf_page (text : string) (n : string) : Document :=
  mkDoc text [("source", DOCUMENT_PATH); ("page", n)].

Definition standin (pages : list Document) (import_error build_error search_error : option PyExn)
  : Backend (list Document) string string :=
  mkBackend (list Document) string string
    import_error
    (fun path => if String.eqb path DOCUMENT_PATH then Ok pages
                 else Exc (ValueError ("File path " ++ path ++ " is not a valid file or url")))
    (fun docs _ => match build_error, docs with
                   | Some e, _ => Exc e
                   | None, [] => Exc chroma_empty_error
                   | None, _ => Ok docs
                   end)
    (fun store _ k => match search_error with Some e => Exc e | None => Ok (firstn k store) end)
    (fun docs q => String.concat (nl ++ nl) (map page_content docs) ++ nl ++ nl
                   ++ "Question: " ++ q)
    (fun _ _ => Ok "Revenue grew 20% in North America.")
    (fun fig => Ok ("png:" ++ fig))
    (fun img text => Ok ("%PDF " ++ img ++ " " ++ text)).

Definition repeat_char (n : nat) (c : ascii) : string :=
  string_of_list_ascii (repeat c n).

(** A page of two 600-character paragraphs. *)
Definition two_paragraphs : string :=
  repeat_char 600 "a" ++ nl ++ nl ++ repeat_char 600 "b".

Definition revenue_page : Document := pdf_page "Revenue grew 20% in North America" "0".

(** The backends used below: everything reachable; the embedding endpoint
    unreachable while the index is built (OllamaEmbeddings reports it as a
    [ValueError]); a [KeyboardInterrupt] during retrieval; retrieval failing
    with the same [ValueError]; a PDF whose only page has no text. *)
Definition endpoint_error : PyExn :=
  ValueError "Error raised by inference endpoint: Connection refused".

Definition ready_backend := standin [revenue_page] None None None.
Definition unreachable_backend := standin [revenue_page] None (Some endpoint_error) None.
Definition interrupted_backend := standin [revenue_page] None None (Some KeyboardInterrupt).
Definition failing_query_backend := standin [revenue_page] None None (Some endpoint_error).
(** [rag_setup.py] missing from the project directory. *)
Definition missing_module_backend :=
  standin [revenue_page] (Some (ModuleNotFoundError "No module named 'rag_setup'")) None None.

Definition fig0 : string := "Q1 2025 Regional Revenue".
Definition revenue_question : string := "What is the total revenue?".
Definition qa0 : @RetrievalQA (list Document) := mkQA "llama3.1" [revenue_page] 4.

(** The dashboard after a failed startup. *)
Definition failed_dashboard : @Dashboard (list Document) string := init_dashboard None fig0.

(** A ready dashboard whose question field holds [q]. *)
Definition ready_dashboard (q : option string) : @Dashboard (list Document) string :=
  mkDashboard (Some qa0) fig0 (Text "Enter a question and click 'Submit'.") None q.

(** ** Proofs *)

(** *** Examples of the splitter *)

Example split_short_page :
  split_text (RecursiveCharacterTextSplitter 1000 200) "  hello world " = ["hello world"].
Proof. vm_compute. reflexivity. Qed.

Example split_blank_page :
  split_text (RecursiveCharacterTextSplitter 1000 200) "   " = [].
Proof. vm_compute. reflexivity. Qed.

Example split_small_chunks :
  split_text (RecursiveCharacterTextSplitter 5 2) "aa bb cc dd" = ["aa bb"; "cc"; "dd"].
Proof. vm_compute. reflexivity. Qed.

Example split_small_chunks_overlap :
  split_text (RecursiveCharacterTextSplitter 6 3) "aa bb cc dd" = ["aa bb"; "bb cc"; "cc dd"].
Proof. vm_compute. reflexivity. Qed.

Example split_two_paragraphs :
  split_text (RecursiveCharacterTextSplitter 1000 200) two_paragraphs
  = [repeat_char 600 "a"; repeat_char 600 "b"].
Proof. vm_compute. reflexivity. Qed.

(** C5 (counterexample): with [chunk_size=1000] and [chunk_overlap=200], a
    page of two 600-character paragraphs gives two chunks that share no
    content: the splitter cuts at the paragraph break and keeps as overlap
    only whole splits of at most 200 characters. *)
Lemma chunker_overlap_counterexample :
  ~ chunker_contract 1000 200 [pdf_page two_paragraphs "0"].
Proof.
  unfold chunker_contract. intros [_ Hpairs].
  vm_compute in Hpairs.
  inversion Hpairs as [|x l Hx _]; subst.
  specialize (Hx eq_refl). vm_compute in Hx. discriminate.
Qed.

(** *** Chunk lengths *)


Lemma string_length_append : forall s t,
  String.length (s ++ t) = String.length s + String.length t.
Proof. induction s as [|c s IH]; intros t; simpl; auto. Qed.

Lemma sum_len_app : forall l1 l2, sum_len (l1 ++ l2) = sum_len l1 + sum_len l2.
Proof. induction l1 as [|s l1 IH]; intros l2; simpl; [reflexivity | rewrite IH; lia]. Qed.

Lemma concat_empty_length : forall l,
  String.length (String.concat "" l) = sum_len l.
Proof.
  induction l as [|s [|t r] IH]; simpl; auto.
  rewrite string_length_append. simpl in IH |- *. rewrite IH. reflexivity.
Qed.

Lemma lstrip_length : forall s, String.length (lstrip s) <= String.length s.
Proof.
  induction s as [|c s IH]; simpl; [lia|].
  destruct (is_space c); simpl; lia.
Qed.

Lemma rstrip_length : forall s, String.length (rstrip s) <= String.length s.
Proof.
  induction s as [|c s IH]; simpl; [lia|].
  destruct (String.eqb (rstrip s) "" && is_space c); simpl; lia.
Qed.

Lemma strip_length : forall s, String.length (strip s) <= String.length s.
Proof.
  intros s. unfold strip.
  pose proof (rstrip_length (lstrip s)). pose proof (lstrip_length s). lia.
Qed.

Lemma join_docs_length : forall ts l x,
  join_docs ts l "" = Some x -> String.length x <= sum_len l.
Proof.
  intros ts l x H. unfold join_docs in H.
  rewrite <- concat_empty_length.
  destruct (_strip_whitespace ts).
  - destruct (String.eqb (strip (String.concat "" l)) ""); inversion H; subst.
    apply strip_length.
  - destruct (String.eqb (String.concat "" l) ""); inversion H; subst. lia.
Qed.

Lemma opt_list_join_bound : forall ts l bound,
  sum_len l <= bound ->
  Forall (fun s => String.length s <= bound) (opt_list (join_docs ts l "")).
Proof.
  intros ts l bound Hl.
  destruct (join_docs ts l "") as [x|] eqn:Hj; simpl; constructor; auto.
  apply join_docs_length in Hj. lia.
Qed.

(** After the [while] loop of [_merge_splits], [total] still measures
    [current_doc], and either the next split fits or nothing is left. *)
Lemma pop_front_spec : forall ts len_d cur total,
  total = sum_len cur ->
  let '(cur', total') := pop_front ts 0 len_d cur total in
  total' = sum_len cur' /\ (total' + len_d <= _chunk_size ts \/ total' = 0).
Proof.
  intros ts len_d cur. induction cur as [|first rest IH]; intros total Ht; simpl.
  - simpl in Ht. auto.
  - destruct ((_chunk_overlap ts <? total)
              || ((_chunk_size ts <? total + len_d + 0) && (0 <? total))) eqn:Hc.
    + apply IH. simpl in Ht. destruct rest; simpl in *; lia.
    + split; [exact Ht|].
      apply orb_false_iff in Hc as [_ Hc].
      apply andb_false_iff in Hc as [Hc|Hc].
      * apply Nat.ltb_ge in Hc. lia.
      * apply Nat.ltb_ge in Hc. lia.
Qed.

Lemma match_pair_const : forall (l : list string) (n : nat),
  match l with _ :: _ :: _ => n | _ => n end = n.
Proof. intros [|? [|? ?]] n; reflexivity. Qed.

Lemma merge_loop_bound : forall ts splits docs cur total,
  Forall (fun s => String.length s < _chunk_size ts) splits ->
  Forall (fun s => String.length s <= _chunk_size ts) docs ->
  total = sum_len cur ->
  total <= _chunk_size ts ->
  Forall (fun s => String.length s <= _chunk_size ts)
         (merge_loop ts "" splits docs cur total).
Proof.
  intros ts splits. induction splits as [|d rest IH];
    intros docs cur total Hsplits Hdocs Ht Hle; simpl.
  - apply Forall_app. split; [exact Hdocs|].
    apply opt_list_join_bound. lia.
  - inversion Hsplits as [|? ? Hd Hrest]; subst.
    destruct (_chunk_size ts <? sum_len cur + String.length d
                                 + match cur with [] => 0 | _ => 0 end) eqn:Hc.
    + destruct cur as [|c0 cur0].
      * apply IH; simpl; auto; lia.
      * pose proof (pop_front_spec ts (String.length d) (c0 :: cur0)
                      (sum_len (c0 :: cur0)) eq_refl) as Hp.
        destruct (pop_front ts 0 (String.length d) (c0 :: cur0) (sum_len (c0 :: cur0)))
          as [cur' total'] eqn:Hpop.
        destruct Hp as [Ht' Hfit].
        apply IH; auto.
        -- apply Forall_app. split; [exact Hdocs|].
           apply opt_list_join_bound. lia.
        -- rewrite match_pair_const, sum_len_app. simpl. lia.
        -- rewrite match_pair_const. lia.
    + apply Nat.ltb_ge in Hc.
      apply IH; auto.
      * rewrite match_pair_const, sum_len_app. simpl. lia.
      * rewrite match_pair_const. destruct cur; lia.
Qed.

Lemma split_loop_bound : forall ts recurse splits good final,
  Forall (fun s => String.length s <= _chunk_size ts) final ->
  Forall (fun s => String.length s < _chunk_size ts) good ->
  match recurse with
  | None => Forall (fun s => String.length s <= _chunk_size ts) splits
  | Some f => forall s, Forall (fun c => String.length c <= _chunk_size ts) (f s)
  end ->
  Forall (fun s => String.length s <= _chunk_size ts)
         (split_loop ts "" recurse splits good final).
Proof.
  intros ts recurse splits. induction splits as [|s rest IH];
    intros good final Hfinal Hgood Hrec; simpl.
  - destruct good; auto.
    apply Forall_app. split; auto.
    apply merge_loop_bound; simpl; auto; lia.
  - assert (Hrec' : match recurse with
                    | None => Forall (fun s => String.length s <= _chunk_size ts) rest
                    | Some f => forall s, Forall (fun c => String.length c <= _chunk_size ts) (f s)
                    end).
    { destruct recurse; auto. inversion Hrec; auto. }
    destruct (String.length s <? _chunk_size ts) eqn:Hs.
    + apply IH; auto.
      apply Forall_app. split; auto. constructor; [apply Nat.ltb_lt; exact Hs | constructor].
    + assert (Hgood' : Forall (fun s => String.length s <= _chunk_size ts)
                         match good with
                         | [] => final
                         | _ => final ++ merge_splits ts good ""
                         end).
      { destruct good; auto.
        apply Forall_app. split; auto. apply merge_loop_bound; simpl; auto; lia. }
      destruct recurse as [f|]; apply IH; auto; apply Forall_app; split; auto.
      inversion Hrec; subst. constructor; auto.
Qed.

Lemma chars_length : forall text,
  Forall (fun s => String.length s = 1) (chars text).
Proof. induction text; simpl; constructor; auto. Qed.

Lemma Forall_filter_keep {A} (P : A -> Prop) (f : A -> bool) : forall l,
  Forall P l -> Forall P (filter f l).
Proof.
  intros l H. apply Forall_forall. intros x Hx.
  apply filter_In in Hx as [Hx _]. rewrite Forall_forall in H. auto.
Qed.

(** Every chunk of [_split_text] fits in [chunk_size] as soon as the
    separators include [""] (splitting into single characters). *)
Lemma split_text_rec_bound : forall ts seps last_sep text,
  _keep_separator ts = true ->
  0 < _chunk_size ts ->
  In "" seps ->
  Forall (fun s => String.length s <= _chunk_size ts)
         (split_text_rec ts seps last_sep text).
Proof.
  intros ts seps last_sep. induction seps as [|s rest IH];
    intros text Hkeep Hpos Hin; simpl.
  - destruct Hin.
  - unfold split_with. rewrite Hkeep.
    destruct (String.eqb s "") eqn:Hs.
    + apply split_loop_bound; auto.
      unfold split_text_with_regex. simpl.
      apply Forall_filter_keep.
      eapply Forall_impl; [|apply chars_length]. simpl. intros a Ha. lia.
    + assert (Hin' : In "" rest).
      { destruct Hin as [Heq|Hin]; auto. subst. discriminate. }
      destruct (re_search s text).
      * destruct rest as [|r0 rs]; [destruct Hin'|].
        apply split_loop_bound; auto.
      * apply IH; auto.
Qed.

(** C5 (amended): for every [chunk_size > 0] and every overlap, each chunk
    produced by the splitter of [create_rag_chain] is at most [chunk_size]
    characters long.  (Consecutive chunks of a page need not share
    [chunk_overlap] characters: see [chunker_overlap_counterexample].) *)
Theorem split_documents_chunk_size : forall chunk_size chunk_overlap pages,
  0 < chunk_size ->
  Forall (fun c => String.length (page_content c) <= chunk_size)
         (split_documents (RecursiveCharacterTextSplitter chunk_size chunk_overlap) pages).
Proof.
  intros cs ov pages Hpos. unfold split_documents.
  induction pages as [|d pages IH]; simpl; [constructor|].
  apply Forall_app. split; auto.
  apply Forall_map.
  apply (split_text_rec_bound (RecursiveCharacterTextSplitter cs ov)); simpl; auto 6.
Qed.

Lemma split_documents_chunk_size_witness :
  0 < 1000 /\
  Forall (fun c => String.length (page_content c) <= 1000)
         (split_documents (RecursiveCharacterTextSplitter 1000 200)
                          [pdf_page two_paragraphs "0"]).
Proof. split; [lia | apply (split_documents_chunk_size 1000 200); lia]. Defined.

(** *** The call log only grows *)

Section Logs.

Context {Store Figure Bytes : Type} (B : Backend Store Figure Bytes).


Lemma extends_ret {A} ok (a : A) : extends ok (ret a).
Proof. intros log. exists []. rewrite app_nil_r. auto. Qed.

Lemma extends_raise {A} ok e : extends ok (@raise A e).
Proof. intros log. exists []. rewrite app_nil_r. auto. Qed.

Lemma extends_call {A} ok c (r : PyResult A) : ok c = true -> extends ok (call c r).
Proof. intros Hc log. exists [c]. simpl. rewrite Hc. auto. Qed.

Lemma extends_bind {A C} ok (m : M A) (k : A -> M C) :
  extends ok m -> (forall a, extends ok (k a)) -> extends ok (bind m k).
Proof.
  intros Hm Hk log. unfold bind.
  destruct (Hm log) as [e1 [H1 F1]].
  destruct (m log) as [[a|e] log1]; simpl in H1; subst log1.
  - destruct (Hk a (log ++ e1)%list) as [e2 [H2 F2]].
    exists (e1 ++ e2)%list. rewrite H2, app_assoc, forallb_app, F1, F2. auto.
  - exists e1. auto.
Qed.

Lemma extends_try {A} ok (m : M A) handlers :
  extends ok m ->
  (forall e h, handlers e = Some h -> extends ok h) ->
  extends ok (try_except m handlers).
Proof.
  intros Hm Hh log. unfold try_except.
  destruct (Hm log) as [e1 [H1 F1]].
  destruct (m log) as [[a|e] log1]; simpl in H1; subst log1.
  - exists e1. auto.
  - destruct (handlers e) as [h|] eqn:He.
    + destruct (Hh e h He (log ++ e1)%list) as [e2 [H2 F2]].
      exists (e1 ++ e2)%list. rewrite H2, app_assoc, forallb_app, F1, F2. auto.
    + exists e1. auto.
Qed.

Lemma extends_dispatch {A} ok (m : M A) : extends ok m -> extends ok (dispatch m).
Proof.
  intros Hm log. unfold dispatch.
  destruct (Hm log) as [e1 [H1 F1]]. destruct (m log) as [r log1]. simpl in *.
  exists e1. auto.
Qed.


Lemma download_pdf_extends : forall n fig text,
  extends no_model_call (download_pdf B n fig text).
Proof.
  intros n fig text. unfold download_pdf.
  destruct n, text; try apply extends_ret.
  destruct (truthy (Some s)); [|apply extends_ret].
  apply extends_bind; [apply extends_call; reflexivity|]. intros img.
  apply extends_bind; [apply extends_call; reflexivity|]. intros pdf.
  apply extends_ret.
Qed.

Lemma update_response_extends : forall rc n q,
  extends (fun _ => true) (update_response B rc n q).
Proof.
  intros rc n q. unfold update_response.
  destruct rc as [qa|]; [|apply extends_ret].
  destruct q as [q|]; [|apply extends_ret].
  destruct (truthy (Some q)); [|apply extends_ret].
  apply extends_try.
  - apply extends_bind.
    + unfold RetrievalQA_invoke.
      apply extends_bind; [apply extends_call; reflexivity|]. intros docs.
      apply extends_bind; [apply extends_call; reflexivity|]. intros answer.
      apply extends_ret.
    + intros response. apply extends_bind.
      * unfold dict_getitem.
        destruct (find _ response) as [[k v]|]; [apply extends_ret | apply extends_raise].
      * intros text. apply extends_ret.
  - intros e h He. destruct (isinstance e "Exception"); inversion He; apply extends_ret.
Qed.

(** [step] never raises: Dash catches what a callback raises.  It never
    changes the server-side [rag_chain]. *)
Lemma step_shape : forall st ev log,
  exists st' o extra,
    step B st ev log = (Ok (st', o), (log ++ extra)%list)
    /\ rag_chain st' = rag_chain st.
Proof.
  intros st ev log. destruct ev as [s|n|n]; unfold step, bind.
  - exists (mkDashboard (rag_chain st) (main_graph st) (rag_response st)
                        (rag_response_store st) (Some s)), OutNone, [].
    rewrite app_nil_r. auto.
  - destruct (extends_dispatch _ _ (update_response_extends (rag_chain st) n (question_input st)) log)
      as [extra [Hl _]].
    destruct (dispatch (update_response B (rag_chain st) n (question_input st)) log)
      as [r log1] eqn:Hd.
    simpl in Hl. subst log1.
    unfold dispatch in Hd.
    destruct (update_response B (rag_chain st) n (question_input st) log) as [r0 l0].
    inversion Hd; subst.
    destruct r0 as [[[children data] value]|e]; simpl; do 3 eexists; split; reflexivity.
  - destruct (extends_dispatch _ _ (download_pdf_extends n (main_graph st) (rag_response_store st)) log)
      as [extra [Hl _]].
    destruct (dispatch (download_pdf B n (main_graph st) (rag_response_store st)) log)
      as [r log1] eqn:Hd.
    simpl in Hl. subst log1.
    unfold dispatch in Hd.
    destruct (download_pdf B n (main_graph st) (rag_response_store st) log) as [r0 l0].
    inversion Hd; subst.
    destruct r0; simpl; do 3 eexists; split; reflexivity.
Qed.

End Logs.

(** *** Claims about the callbacks *)

Section Callbacks.

Context {Store Figure Bytes : Type} (B : Backend Store Figure Bytes).

Lemma step_failed : forall st ev log,
  rag_chain st = None ->
  exists st' o extra,
    step B st ev log = (Ok (st', o), (log ++ extra)%list)
    /\ rag_chain st' = None
    /\ forallb no_model_call extra = true
    /\ (is_submit ev = true -> o = OutResponse degraded_response).
Proof.
  intros st ev log Hnone. destruct ev as [s|n|n]; unfold step, bind.
  - exists (mkDashboard (rag_chain st) (main_graph st) (rag_response st)
                        (rag_response_store st) (Some s)), OutNone, [].
    rewrite app_nil_r. simpl. repeat split; auto. discriminate.
  - unfold dispatch. rewrite Hnone. simpl.
    eexists; eexists; exists []. rewrite app_nil_r.
    split; [reflexivity|]. simpl. auto.
  - destruct (extends_dispatch _ _ (download_pdf_extends B n (main_graph st) (rag_response_store st)) log)
      as [extra [Hl Hok]].
    unfold dispatch in *.
    destruct (download_pdf B n (main_graph st) (rag_response_store st) log) as [r0 l0].
    simpl in Hl. subst l0.
    destruct r0; simpl; do 3 eexists; (split; [reflexivity|]); repeat split; auto;
      discriminate.
Qed.

(** C1: once initialisation has failed ([rag_chain is None]), the answer
    callback, for every click and every question (empty or absent
    included), returns the fixed response (displayed "RAG system not
    initialized. Check server logs for errors." in red, stored "RAG system
    not initialized.", question field cleared) without raising and without
    any call.  Over any sequence of later events, [rag_chain] stays [None],
    every submission produces exactly that response, and no retrieval or
    generation call is made. *)
Theorem failed_pipeline_answers_degraded : forall st evs log,
  rag_chain st = None ->
  (forall n q log0, update_response B (rag_chain st) n q log0 = (Ok degraded_response, log0))
  /\ exists st' outs extra,
       run B st evs log = (Ok (st', outs), (log ++ extra)%list)
       /\ forallb no_model_call extra = true
       /\ rag_chain st' = None
       /\ Forall2 (fun ev o => is_submit ev = true -> o = OutResponse degraded_response) evs outs.
Proof.
  intros st evs log Hnone. split.
  { intros n q log0. rewrite Hnone. reflexivity. }
  revert st log Hnone.
  induction evs as [|ev evs IH]; intros st log Hnone; simpl.
  - exists st, [], []. rewrite app_nil_r. auto.
  - unfold bind.
    destruct (step_failed st ev log Hnone) as [st1 [o [e1 [Hs [Hn1 [Hok1 Ho]]]]]].
    rewrite Hs.
    destruct (IH st1 (log ++ e1)%list Hn1)
      as [st2 [outs [e2 [Hr2 [Hok2 [Hn2 Houts]]]]]].
    rewrite Hr2. simpl.
    exists st2, (o :: outs), (e1 ++ e2)%list.
    rewrite app_assoc, forallb_app, Hok1, Hok2.
    split; [reflexivity|]. split; [reflexivity|].
    split; [exact Hn2|]. constructor; auto.
Qed.

(** C9: with an initialised pipeline and an empty or absent question,
    submitting leaves the displayed response and the stored response as they
    are and clears the question field to [""]; nothing is retrieved or
    generated. *)
Theorem empty_question_keeps_response : forall st ch n log,
  rag_chain st = Some ch ->
  truthy (question_input st) = false ->
  step B st (ClickSubmit n) log
  = (Ok (mkDashboard (rag_chain st) (main_graph st) (rag_response st)
                     (rag_response_store st) (Some ""),
         OutResponse (no_update, no_update, "")), log).
Proof.
  intros st ch n log Hch Hq.
  unfold step, bind, dispatch, update_response. rewrite Hch.
  destruct (question_input st) as [q|]; [rewrite Hq|]; reflexivity.
Qed.

(** The next submission only depends on the server-side [rag_chain]: what
    the dashboard displayed or stored before does not change it. *)
Lemma next_query_independent : forall st st' q2 n2 log,
  rag_chain st = rag_chain st' ->
  observed (run B st [TypeQuestion q2; ClickSubmit n2] log)
  = observed (run B st' [TypeQuestion q2; ClickSubmit n2] log).
Proof.
  intros st st' q2 n2 log Hrc.
  unfold run, step, bind. simpl. rewrite Hrc.
  destruct (dispatch (update_response B (rag_chain st') n2 (Some q2)) log)
    as [[[[[children data] value]|e]|e] log'];
  reflexivity.
Qed.

(** C2 (amended): when the pipeline is ready and retrieval or generation
    raises an exception [e] on a non-empty question: if [e] derives from
    [Exception], submitting displays and stores ["An error occurred: " ++
    str(e)], the pipeline stays ready with the same chain, and the next
    question is answered exactly as it would have been had the failed one
    never been asked; otherwise [e] propagates out of [update_response] (no
    error string is returned), Dash reports it and the dashboard, with its
    ready chain, is left exactly as it was. *)
Theorem query_failure_reported : forall st ch n q e log q2 n2 log2,
  rag_chain st = Some ch ->
  question_input st = Some q ->
  q <> "" ->
  fst (RetrievalQA_invoke B ch q log) = Exc e ->
  let msg := "An error occurred: " ++ exn_str e in
  (isinstance e "Exception" = true ->
   exists st1 log1,
     step B st (ClickSubmit n) log
     = (Ok (st1, OutResponse (set (P msg (Some "red")), set msg, "")), log1)
     /\ rag_chain st1 = Some ch
     /\ rag_response_store st1 = Some msg
     /\ observed (run B st1 [TypeQuestion q2; ClickSubmit n2] log2)
        = observed (run B st [TypeQuestion q2; ClickSubmit n2] log2))
  /\ (isinstance e "Exception" = false ->
      fst (update_response B (rag_chain st) n (question_input st) log) = Exc e
      /\ exists log1, step B st (ClickSubmit n) log = (Ok (st, OutError e), log1)).
Proof.
  intros st ch n q e log q2 n2 log2 Hch Hq Hne Hinv msg.
  assert (Htr : truthy (Some q) = true).
  { simpl. destruct (String.eqb_spec q ""); [contradiction | reflexivity]. }
  assert (Hu : exists log1,
            update_response B (rag_chain st) n (question_input st) log
            = (if isinstance e "Exception"
               then Ok (set (P msg (Some "red")), set msg, "") else Exc e, log1)).
  { rewrite Hch, Hq. unfold update_response. rewrite Htr.
    unfold try_except, bind at 1.
    destruct (RetrievalQA_invoke B ch q log) as [[resp|e'] log1];
      simpl in Hinv; [discriminate|].
    inversion Hinv; subst e'. exists log1.
    destruct (isinstance e "Exception"); reflexivity. }
  destruct Hu as [log1 Hu].
  split; intros Hexc; rewrite Hexc in Hu.
  - unfold step, bind, dispatch. cbv beta. rewrite Hu.
    eexists; exists log1. split; [reflexivity|].
    split; [simpl; exact Hch|]. split; [reflexivity|].
    apply next_query_independent. simpl. reflexivity.
  - rewrite Hu. split; [reflexivity|].
    exists log1. unfold step, bind, dispatch. cbv beta. rewrite Hu. reflexivity.
Qed.

(** C4 (amended): [update_response] either returns, with the question field
    cleared, a new response whose displayed and stored texts are the same
    text: the grounded answer (the LLM's output on the prompt built from the
    documents retrieved for the question), ["An error occurred: " ++ str(e)]
    for an [Exception] [e] raised by retrieval or generation, or the
    not-initialised message; or, for an empty or absent question with a
    ready pipeline, no update.  The only exceptions it lets through are those
    raised by retrieval or generation that do not derive from [Exception]. *)
Theorem update_response_outcome : forall rc n q log,
  match fst (update_response B rc n q log) with
  | Ok (children, data, value) =>
      value = ""
      /\ ((rc = None /\ (children, data, value) = degraded_response)
          \/ (exists qa s docs answer,
                rc = Some qa /\ q = Some s /\ s <> ""
                /\ similarity_search B (qa_store qa) s (qa_k qa) = Ok docs
                /\ Ollama_generate B (qa_llm qa) (stuff_prompt B docs s) = Ok answer
                /\ children = set (P answer None) /\ data = set answer)
          \/ (exists qa s e,
                rc = Some qa /\ q = Some s /\ s <> ""
                /\ fst (RetrievalQA_invoke B qa s log) = Exc e
                /\ isinstance e "Exception" = true
                /\ children = set (P ("An error occurred: " ++ exn_str e) (Some "red"))
                /\ data = set ("An error occurred: " ++ exn_str e))
          \/ (rc <> None /\ truthy q = false /\ children = no_update /\ data = no_update))
  | Exc e =>
      isinstance e "Exception" = false
      /\ exists qa s, rc = Some qa /\ q = Some s /\ fst (RetrievalQA_invoke B qa s log) = Exc e
  end.
Proof.
  intros rc n q log. unfold update_response.
  destruct rc as [qa|].
  2:{ simpl. split; [reflexivity|]. left. auto. }
  destruct q as [q|].
  2:{ simpl. split; [reflexivity|]. right; right; right. repeat split; discriminate. }
  destruct (truthy (Some q)) eqn:Htr.
  2:{ simpl. split; [reflexivity|]. right; right; right. repeat split; auto; discriminate. }
  assert (Hne : q <> "").
  { intros ->. discriminate Htr. }
  unfold try_except, bind at 1.
  destruct (RetrievalQA_invoke B qa q log) as [[resp|e] log1] eqn:Hi.
  - unfold RetrievalQA_invoke, bind, call in Hi.
    destruct (similarity_search B (qa_store qa) q (qa_k qa)) as [docs|e0] eqn:Hs;
      [|discriminate].
    destruct (Ollama_generate B (qa_llm qa) (stuff_prompt B docs q)) as [answer|e0] eqn:Hg;
      [|discriminate].
    inversion Hi; subst resp log1.
    unfold bind, dict_getitem. simpl.
    split; [reflexivity|]. right; left.
    exists qa, q, docs, answer. repeat split; auto.
  - destruct (isinstance e "Exception") eqn:He; simpl.
    + split; [reflexivity|]. right; right; left.
      exists qa, q, e. rewrite Hi. repeat split; auto.
    + split; [exact He|]. exists qa, q. rewrite Hi. auto.
Qed.

End Callbacks.

(** *** Claims about startup and the report download *)

Section Startup.

Context {Store Figure Bytes : Type} (B : Backend Store Figure Bytes).

Lemma run_shape : forall st evs log,
  exists st' outs extra,
    run B st evs log = (Ok (st', outs), (log ++ extra)%list)
    /\ rag_chain st' = rag_chain st.
Proof.
  intros st evs. revert st.
  induction evs as [|ev evs IH]; intros st log; simpl.
  - exists st, [], []. rewrite app_nil_r. auto.
  - unfold bind.
    destruct (step_shape B st ev log) as [st1 [o [e1 [Hs Hrc1]]]]. rewrite Hs.
    destruct (IH st1 (log ++ e1)%list) as [st2 [outs [e2 [Hr Hrc2]]]]. rewrite Hr.
    exists st2, (o :: outs), (e1 ++ e2)%list.
    rewrite app_assoc. split; [reflexivity|]. congruence.
Qed.

(** C3 (amended): startup ends in the failed state ([rag_chain = None],
    with one error line written to stderr) exactly when importing
    [rag_setup] or running [create_rag_chain] raises a [FileNotFoundError]
    or an [ImportError] (subclasses included); when neither raises, the app
    starts with a chain; any other exception propagates out of the module,
    with nothing written.  Whatever [rag_chain] is after startup, no later
    event changes it. *)
Theorem startup_failed_state : forall log,
  match startup_body B log with
  | (Ok rc, l) => app_startup B log = (Ok rc, l) /\ exists qa, rc = Some qa
  | (Exc e, l) =>
      if isinstance e "FileNotFoundError" then
        app_startup B log
        = (Ok None, (l ++ [CallStderr "ERROR: Document 'external_doc.pdf' not found. Please add it to the project directory."])%list)
      else if isinstance e "ImportError" then
        app_startup B log
        = (Ok None, (l ++ [CallStderr "ERROR: rag_setup.py not found. Please ensure it's in the project directory."])%list)
      else app_startup B log = (Exc e, l)
  end
  /\ (fst (app_startup B log) = Ok None
      <-> exists e l, startup_body B log = (Exc e, l)
                      /\ (isinstance e "FileNotFoundError" || isinstance e "ImportError") = true)
  /\ forall st evs log',
       exists st' outs log'',
         run B st evs log' = (Ok (st', outs), log'') /\ rag_chain st' = rag_chain st.
Proof.
  intros log.
  assert (Hok : forall rc l, startup_body B log = (Ok rc, l) -> exists qa, rc = Some qa).
  { intros rc l H. unfold startup_body, bind, call in H.
    destruct (import_rag_setup B); [discriminate|].
    destruct (create_rag_chain B DOCUMENT_PATH (log ++ [CallImport "rag_setup"])%list)
      as [[qa|e] l1]; inversion H; eauto. }
  split; [|split].
  - unfold app_startup, try_except.
    destruct (startup_body B log) as [[rc|e] l] eqn:Hb.
    + split; [reflexivity|]. eapply Hok. reflexivity.
    + unfold startup_handlers.
      destruct (isinstance e "FileNotFoundError"); [reflexivity|].
      destruct (isinstance e "ImportError"); reflexivity.
  - unfold app_startup, try_except.
    destruct (startup_body B log) as [[rc|e] l] eqn:Hb.
    + destruct (Hok rc l eq_refl) as [qa ->]. simpl. split.
      * discriminate.
      * intros [e [l' [H _]]]. discriminate H.
    + unfold startup_handlers.
      split.
      * intros H. exists e, l. split; [reflexivity|].
        destruct (isinstance e "FileNotFoundError"); [reflexivity|].
        destruct (isinstance e "ImportError"); [reflexivity | discriminate H].
      * intros [e' [l' [H Hcls]]]. inversion H; subst e' l'.
        destruct (isinstance e "FileNotFoundError"); [reflexivity|].
        destruct (isinstance e "ImportError"); [reflexivity | discriminate Hcls].
  - intros st evs log'.
    destruct (run_shape st evs log') as [st' [outs [extra [Hr Hrc]]]].
    eauto.
Qed.


Lemma step_store : forall st ev log,
  match fst (step B st ev log) with
  | Ok (st', o) =>
      rag_response_store st' = rag_response_store st
      \/ exists s, rag_response_store st' = Some s /\ stored_texts [o] = [s]
  | Exc _ => True
  end.
Proof.
  intros st ev log. destruct ev as [s|n|n]; unfold step, bind, dispatch; simpl; auto.
  - destruct (update_response B (rag_chain st) n (question_input st) log)
      as [[[[children [|s]] value]|e] l]; simpl; auto.
    right. exists s. auto.
  - destruct (download_pdf B n (main_graph st) (rag_response_store st) log)
      as [[d|e] l]; simpl; auto.
Qed.

Lemma run_store : forall st evs log st' outs log',
  run B st evs log = (Ok (st', outs), log') ->
  rag_response_store st' = rag_response_store st
  \/ exists s, rag_response_store st' = Some s /\ In s (stored_texts outs).
Proof.
  intros st evs. revert st.
  induction evs as [|ev evs IH]; intros st log st' outs log' Hrun; simpl in Hrun.
  - inversion Hrun; subst. auto.
  - unfold bind in Hrun.
    pose proof (step_store st ev log) as Hs.
    destruct (step B st ev log) as [[[st1 o]|e] l1]; [|discriminate].
    destruct (run B st1 evs l1) as [[[st2 outs2]|e] l2] eqn:Hr; [|discriminate].
    simpl in Hrun. inversion Hrun; subst st' outs log'.
    destruct (IH st1 l1 st2 outs2 l2 Hr) as [H2|[s [H2 Hin]]].
    + simpl in Hs. destruct Hs as [H1|[s [H1 Ho]]].
      * left. congruence.
      * right. exists s. split; [congruence|].
        unfold stored_texts in *. simpl. rewrite app_nil_r in Ho. rewrite Ho. left. reflexivity.
    + right. exists s. split; auto.
      unfold stored_texts in *. simpl. apply in_or_app. right. exact Hin.
Qed.

(** C10: after any run from the initial layout, the download callback does
    nothing (no update, no call) while no response text has been stored, and
    it does anything else (render the chart and build the PDF) only when the
    store holds a non-empty text that an earlier submission stored. *)
Theorem download_requires_stored_answer : forall rc fig evs log n log2,
  exists st outs log',
    run B (init_dashboard rc fig) evs log = (Ok (st, outs), log')
    /\ (stored_texts outs = [] ->
        download_pdf B n (main_graph st) (rag_response_store st) log2 = (Ok no_update, log2))
    /\ (download_pdf B n (main_graph st) (rag_response_store st) log2 <> (Ok no_update, log2) ->
        exists s, rag_response_store st = Some s /\ s <> "" /\ In s (stored_texts outs)).
Proof.
  intros rc fig evs log n log2.
  destruct (run_shape (init_dashboard rc fig) evs log) as [st [outs [extra [Hr _]]]].
  exists st, outs, (log ++ extra)%list. split; [exact Hr|].
  destruct (run_store _ _ _ _ _ _ Hr) as [Hst|[s [Hst Hin]]].
  - simpl in Hst. rewrite Hst.
    split; intros H; [destruct n; reflexivity|].
    exfalso. apply H. destruct n; reflexivity.
  - rewrite Hst. split.
    + intros Hnil. rewrite Hnil in Hin. destruct Hin.
    + intros H. exists s. split; [reflexivity|]. split; [|exact Hin].
      intros Hs. subst s. apply H. destruct n; reflexivity.
Qed.

End Startup.

(** *** Further properties of the code *)

Section Extras.

Context {Store Figure Bytes : Type} (B : Backend Store Figure Bytes).

Lemma truthy_nonempty : forall q, q <> "" -> truthy (Some q) = true.
Proof. intros q Hq. simpl. destruct (String.eqb_spec q ""); [contradiction | reflexivity]. Qed.

(** X1: for a ready pipeline and a non-empty question, the answer shown and
    stored is the LLM's output on the "stuff" prompt built from exactly the
    documents the retriever returned for the question; exactly one retrieval
    (with the chain's [k]) and one generation call are made. *)
Theorem answer_from_retrieved_docs : forall qa n q log docs answer,
  q <> "" ->
  similarity_search B (qa_store qa) q (qa_k qa) = Ok docs ->
  Ollama_generate B (qa_llm qa) (stuff_prompt B docs q) = Ok answer ->
  update_response B (Some qa) n (Some q) log
  = (Ok (set (P answer None), set answer, ""),
     (log ++ [CallSearch q (qa_k qa); CallLLM (stuff_prompt B docs q)])%list).
Proof.
  intros qa n q log docs answer Hq Hs Hg.
  unfold update_response. rewrite (truthy_nonempty q Hq).
  unfold try_except, RetrievalQA_invoke, bind, call. rewrite Hs. simpl. rewrite Hg.
  simpl. rewrite <- app_assoc. reflexivity.
Qed.

(** X2: when retrieval raises, no generation call is made; an [Exception]
    is reported as ["An error occurred: " ++ str(e)], anything else is
    re-raised. *)
Theorem retrieval_failure_skips_generation : forall qa n q log e,
  q <> "" ->
  similarity_search B (qa_store qa) q (qa_k qa) = Exc e ->
  update_response B (Some qa) n (Some q) log
  = (if isinstance e "Exception"
     then Ok (set (P ("An error occurred: " ++ exn_str e) (Some "red")),
              set ("An error occurred: " ++ exn_str e), "")
     else Exc e,
     (log ++ [CallSearch q (qa_k qa)])%list).
Proof.
  intros qa n q log e Hq Hs.
  unfold update_response. rewrite (truthy_nonempty q Hq).
  unfold try_except, RetrievalQA_invoke, bind, call. rewrite Hs. simpl.
  destruct (isinstance e "Exception"); reflexivity.
Qed.

(** X3: [create_rag_chain] stops at the loader when it raises, with its
    exception unchanged; otherwise it builds the index from exactly the chunks
    of the loaded pages with the [llama3.1] embeddings, and the chain it
    returns uses the [llama3.1] LLM and retrieves 4 documents. *)
Theorem create_rag_chain_calls : forall path log,
  match PyPDFLoader_load B path with
  | Exc e => create_rag_chain B path log = (Exc e, (log ++ [CallLoad path])%list)
  | Ok pages =>
      let texts := split_documents (RecursiveCharacterTextSplitter 1000 200) pages in
      create_rag_chain B path log
      = (match Chroma_from_documents B texts "llama3.1" with
         | Ok store => Ok (mkQA "llama3.1" store 4)
         | Exc e => Exc e
         end,
         (log ++ [CallLoad path; CallBuild (List.length texts)])%list)
  end.
Proof.
  intros path log. unfold create_rag_chain, bind, call.
  destruct (PyPDFLoader_load B path) as [pages|e]; simpl; [|reflexivity].
  rewrite <- app_assoc.
  destruct (Chroma_from_documents B _ "llama3.1"); reflexivity.
Qed.

(** X4: when startup fails with a [FileNotFoundError] it writes one stderr
    line naming the document; with an [ImportError] (and no
    [FileNotFoundError]) one line about [rag_setup.py]; any other exception
    is re-raised with nothing written. *)
Theorem startup_error_line : forall log e l,
  startup_body B log = (Exc e, l) ->
  app_startup B log
  = if isinstance e "FileNotFoundError" then
      (Ok None, (l ++ [CallStderr "ERROR: Document 'external_doc.pdf' not found. Please add it to the project directory."])%list)
    else if isinstance e "ImportError" then
      (Ok None, (l ++ [CallStderr "ERROR: rag_setup.py not found. Please ensure it's in the project directory."])%list)
    else (Exc e, l).
Proof.
  intros log e l H. unfold app_startup, try_except. rewrite H.
  unfold startup_handlers.
  destruct (isinstance e "FileNotFoundError"); [reflexivity|].
  destruct (isinstance e "ImportError"); reflexivity.
Qed.

(** X5: when importing [rag_setup] raises, startup never tries to load the
    document: the only call made is the import. *)
Theorem import_failure_no_load : forall log e,
  import_rag_setup B = Some e ->
  startup_body B log = (Exc e, (log ++ [CallImport "rag_setup"])%list).
Proof.
  intros log e H. unfold startup_body, bind, call. rewrite H. reflexivity.
Qed.

(** X6: with a click and a non-empty stored text, the download renders the
    current chart, builds the PDF from that image and the text, and sends it
    as ["analysis_report.pdf"]; when the chart export raises, no PDF is built
    and the exception propagates. *)
Theorem download_builds_report : forall n fig text log,
  text <> "" ->
  download_pdf B (Some n) fig (Some text) log
  = match pio_to_image B fig with
    | Exc e => (Exc e, (log ++ [CallToImage])%list)
    | Ok img =>
        match pdf_report B img text with
        | Ok pdf => (Ok (set (pdf, "analysis_report.pdf")),
                     (log ++ [CallToImage; CallPdfReport])%list)
        | Exc e => (Exc e, (log ++ [CallToImage; CallPdfReport])%list)
        end
    end.
Proof.
  intros n fig text log Ht. unfold download_pdf.
  rewrite (truthy_nonempty text Ht). unfold bind, call.
  destruct (pio_to_image B fig) as [img|e]; [|reflexivity].
  simpl. rewrite <- app_assoc.
  destruct (pdf_report B img text); reflexivity.
Qed.



(** X8: typing and downloading never change the displayed response, the
    stored response or the pipeline: only a submission does. *)
Theorem no_submit_keeps_response : forall st evs log st' outs log',
  forallb (fun ev => negb (is_submit ev)) evs = true ->
  run B st evs log = (Ok (st', outs), log') ->
  rag_response st' = rag_response st
  /\ rag_response_store st' = rag_response_store st
  /\ rag_chain st' = rag_chain st.
Proof.
  intros st evs. revert st.
  induction evs as [|ev evs IH]; intros st log st' outs log' Hns H; simpl in H.
  - inversion H; auto.
  - simpl in Hns. apply andb_true_iff in Hns as [Hev Hns].
    unfold bind in H.
    destruct (step B st ev log) as [[[st1 o]|e] l1] eqn:Hs; [|discriminate].
    destruct (run B st1 evs l1) as [[[st2 outs2]|e] l2] eqn:Hr; [|discriminate].
    simpl in H. inversion H; subst.
    destruct (IH _ _ _ _ _ Hns Hr) as [H1 [H2 H3]].
    destruct ev as [s|n|n]; simpl in Hev; [|discriminate|];
      unfold step, bind, dispatch in Hs.
    + inversion Hs; subst. simpl in *. auto.
    + destruct (download_pdf B n (main_graph st) (rag_response_store st) log)
        as [[d|e] l]; inversion Hs; subst; auto.
Qed.

Lemma update_response_shapes : forall rc n q log,
  match fst (update_response B rc n q log) with
  | Ok (c, d, _) =>
      (c = no_update /\ d = no_update)
      \/ (exists s col, c = set (P s col) /\ d = set s)
      \/ (c = set (P not_initialized_display (Some "red")) /\ d = set not_initialized_store)
  | Exc _ => True
  end.
Proof.
  intros rc n q log. unfold update_response.
  destruct rc as [qa|]; [|simpl; auto].
  destruct q as [q|]; [|simpl; auto].
  destruct (truthy (Some q)); [|simpl; auto].
  unfold try_except, bind at 1.
  destruct (RetrievalQA_invoke B qa q log) as [[resp|e] log1].
  - unfold bind, dict_getitem.
    destruct (find _ resp) as [[k v]|]; simpl; eauto 6.
  - destruct (isinstance e "Exception"); simpl; eauto 6.
Qed.

Lemma step_stored : forall st ev log st' o log',
  step B st ev log = (Ok (st', o), log') ->
  match o with
  | OutResponse (_, set s, _) => shows_stored st' s
  | _ => rag_response st' = rag_response st /\ rag_response_store st' = rag_response_store st
  end.
Proof.
  intros st ev log st' o log' H.
  destruct ev as [s|n|n]; unfold step, bind, dispatch in H.
  - inversion H; subst. simpl. auto.
  - pose proof (update_response_shapes (rag_chain st) n (question_input st) log) as Hsh.
    destruct (update_response B (rag_chain st) n (question_input st) log)
      as [[[[c d] v]|e] l]; inversion H; subst; [|auto].
    simpl in Hsh.
    destruct Hsh as [[-> ->]|[[s' [col [-> ->]]]|[-> ->]]]; simpl.
    + auto.
    + split; [reflexivity|]. left. exists col. reflexivity.
    + split; [reflexivity|]. right. auto.
  - destruct (download_pdf B n (main_graph st) (rag_response_store st) log)
      as [[d|e] l]; inversion H; subst; auto.
Qed.

Lemma run_stored : forall st0 evs log st outs log',
  run B st0 evs log = (Ok (st, outs), log') ->
  match rev (stored_texts outs) with
  | [] => rag_response st = rag_response st0 /\ rag_response_store st = rag_response_store st0
  | s :: _ => shows_stored st s
  end.
Proof.
  intros st0 evs. revert st0.
  induction evs as [|ev evs IH]; intros st0 log st outs log' H; simpl in H.
  - inversion H; subst. simpl. auto.
  - unfold bind in H.
    destruct (step B st0 ev log) as [[[st1 o]|e] l1] eqn:Hs; [|discriminate].
    destruct (run B st1 evs l1) as [[[st2 outs2]|e] l2] eqn:Hr; [|discriminate].
    simpl in H. inversion H; subst st outs log'.
    pose proof (step_stored _ _ _ _ _ _ Hs) as Ho.
    pose proof (IH _ _ _ _ _ Hr) as Hrest.
    unfold stored_texts in *. cbn [flat_map]. rewrite rev_app_distr.
    destruct (rev (flat_map _ outs2)) as [|s r]; [|exact Hrest].
    destruct Hrest as [E1 E2]. simpl app.
    destruct o as [| [[c [|s]] v] | d | e]; simpl;
      try (destruct Ho as [E3 E4]; split; congruence).
    unfold shows_stored in *. rewrite E1, E2. exact Ho.
Qed.

(** X9: from the initial layout, after any sequence of events: while no
    response has been stored, the placeholder is displayed and nothing is
    stored; afterwards the store holds the last response stored, and it is
    the text on screen (the not-initialised message being displayed in its
    long form). *)
Theorem display_matches_store_always : forall rc fig evs log st outs log',
  run B (init_dashboard rc fig) evs log = (Ok (st, outs), log') ->
  match rev (stored_texts outs) with
  | [] => rag_response st = Text "Enter a question and click 'Submit'."
          /\ rag_response_store st = None
  | s :: _ => shows_stored st s
  end.
Proof.
  intros rc fig evs log st outs log' H.
  exact (run_stored _ _ _ _ _ _ H).
Qed.

(** X10: when [external_doc.pdf] exists and every stage succeeds, the test
    run of [rag_setup.py] prints the LLM's answer to its fixed question,
    generated from the 4 documents retrieved for that question in the index
    built from the chunks of the loaded pages; the calls are exactly load,
    build, search, generate. *)
Theorem rag_setup_main_answer : forall path_exists log pages store docs answer,
  path_exists "external_doc.pdf" = true ->
  PyPDFLoader_load B "external_doc.pdf" = Ok pages ->
  Chroma_from_documents B (split_documents (RecursiveCharacterTextSplitter 1000 200) pages)
                        "llama3.1" = Ok store ->
  similarity_search B store "What was the main topic of the document?" 4 = Ok docs ->
  Ollama_generate B "llama3.1" (stuff_prompt B docs "What was the main topic of the document?")
  = Ok answer ->
  rag_setup_main B path_exists log
  = (Ok answer,
     (log ++ [CallLoad "external_doc.pdf";
              CallBuild (List.length (split_documents (RecursiveCharacterTextSplitter 1000 200) pages));
              CallSearch "What was the main topic of the document?" 4;
              CallLLM (stuff_prompt B docs "What was the main topic of the document?")])%list).
Proof.
  intros path_exists log pages store docs answer Hp Hl Hc Hs Hg.
  unfold rag_setup_main. rewrite Hp. cbn [negb].
  unfold create_rag_chain, RetrievalQA_invoke, bind, call, ret.
  rewrite Hl. cbv beta iota zeta. rewrite Hc. cbv beta iota zeta.
  cbn [qa_store qa_k qa_llm]. rewrite Hs. cbv beta iota zeta. rewrite Hg.
  cbv beta iota zeta. unfold dict_getitem. simpl find. cbv beta iota zeta.
  repeat rewrite <- app_assoc. reflexivity.
Qed.

Lemma step_no_submit_extends : forall st ev,
  is_submit ev = false -> extends no_model_call (step B st ev).
Proof.
  intros st ev Hev. destruct ev as [s|n|n]; [|discriminate|]; unfold step.
  - apply extends_ret.
  - apply extends_bind.
    + apply extends_dispatch, download_pdf_extends.
    + intros [d|e]; apply extends_ret.
Qed.

(** X13: typing a question and downloading reports never query the
    retriever or the LLM: only a submission reaches the model. *)
Theorem no_submit_no_model_call : forall st evs,
  forallb (fun ev => negb (is_submit ev)) evs = true ->
  extends no_model_call (run B st evs).
Proof.
  intros st evs. revert st.
  induction evs as [|ev evs IH]; intros st Hns; simpl; [apply extends_ret|].
  simpl in Hns. apply andb_true_iff in Hns as [Hev Hns].
  apply extends_bind.
  - apply step_no_submit_extends. destruct (is_submit ev); [discriminate | reflexivity].
  - intros [st1 o]. apply extends_bind; [apply IH; exact Hns|].
    intros [st2 os]. apply extends_ret.
Qed.

(** X14: a submission whose callback returns clears the question box; one
    whose callback raises leaves the whole dashboard as it was. *)
Theorem submit_clears_question : forall st n log st' o log',
  step B st (ClickSubmit n) log = (Ok (st', o), log') ->
  match o with
  | OutError _ => st' = st
  | _ => question_input st' = Some ""
  end.
Proof.
  intros st n log st' o log' H. unfold step, bind, dispatch in H.
  destruct (update_response B (rag_chain st) n (question_input st) log)
    as [r l] eqn:Hu.
  destruct r as [[[c d] v]|e]; inversion H; subst; [|reflexivity].
  simpl. f_equal.
  assert (Hv : forall log0, match fst (update_response B (rag_chain st) n (question_input st) log0) with
                            | Ok (_, _, v0) => v0 = ""
                            | Exc _ => True end).
  { intros log0. unfold update_response.
    destruct (rag_chain st) as [qa|]; [|reflexivity].
    destruct (question_input st) as [q|]; [|reflexivity].
    destruct (truthy (Some q)); [|reflexivity].
    unfold try_except, bind at 1.
    destruct (RetrievalQA_invoke B qa q log0) as [[resp|e0] log1].
    - unfold bind, dict_getitem.
      destruct (find _ resp) as [[k w]|]; reflexivity.
    - destruct (isinstance e0 "Exception"); reflexivity. }
  specialize (Hv log). rewrite Hu in Hv. exact Hv.
Qed.

(** X15: when the import, the PDF load and the index build all succeed,
    the app starts with the chain built from [external_doc.pdf]
    ([llama3.1], 4 retrieved documents), having made exactly the import,
    load and build calls and written nothing to stderr. *)
Theorem startup_success : forall log pages store,
  import_rag_setup B = None ->
  PyPDFLoader_load B DOCUMENT_PATH = Ok pages ->
  Chroma_from_documents B (split_documents (RecursiveCharacterTextSplitter 1000 200) pages)
                        "llama3.1" = Ok store ->
  app_startup B log
  = (Ok (Some (mkQA "llama3.1" store 4)),
     (log ++ [CallImport "rag_setup"; CallLoad DOCUMENT_PATH;
              CallBuild (List.length (split_documents (RecursiveCharacterTextSplitter 1000 200) pages))])%list).
Proof.
  intros log pages store Hi Hl Hc.
  unfold app_startup, try_except, startup_body, create_rag_chain, bind, call, ret.
  rewrite Hi. cbv beta iota zeta. rewrite Hl. cbv beta iota zeta. rewrite Hc.
  cbv beta iota zeta. repeat rewrite <- app_assoc. reflexivity.
Qed.

End Extras.

(** *** Further properties of the splitter *)

Lemma lstrip_head : forall s,
  match lstrip s with String c _ => is_space c = false | EmptyString => True end.
Proof.
  induction s as [|c r IH]; simpl; auto.
  destruct (is_space c) eqn:Hc; auto.
Qed.

Lemma rstrip_idem : forall s, rstrip (rstrip s) = rstrip s.
Proof.
  induction s as [|c r IH]; simpl; auto.
  destruct (String.eqb (rstrip r) "" && is_space c) eqn:Hc; simpl; auto.
  rewrite IH, Hc. reflexivity.
Qed.

Lemma lstrip_rstrip_head : forall u,
  match u with String c _ => is_space c = false | EmptyString => True end ->
  lstrip (rstrip u) = rstrip u.
Proof.
  intros [|c r] Hu; simpl; auto.
  rewrite Hu, andb_false_r. simpl. rewrite Hu. reflexivity.
Qed.

Lemma strip_idem : forall s, strip (strip s) = strip s.
Proof.
  intros s. unfold strip.
  rewrite (lstrip_rstrip_head (lstrip s) (lstrip_head s)).
  apply rstrip_idem.
Qed.

Lemma join_docs_stripped : forall ts l sep x,
  _strip_whitespace ts = true ->
  join_docs ts l sep = Some x -> strip x = x /\ x <> "".
Proof.
  intros ts l sep x Hs H. unfold join_docs in H. rewrite Hs in H.
  destruct (String.eqb (strip (String.concat sep l)) "") eqn:He; inversion H; subst.
  split; [apply strip_idem|].
  intros Hx. rewrite Hx in He. discriminate.
Qed.

Lemma opt_list_join_all : forall (P : string -> Prop) ts l sep,
  (forall x, join_docs ts l sep = Some x -> P x) ->
  Forall P (opt_list (join_docs ts l sep)).
Proof.
  intros P ts l sep H. destruct (join_docs ts l sep) eqn:Hj; simpl; auto.
Qed.

Lemma merge_loop_all : forall (P : string -> Prop) ts sep splits docs cur total,
  (forall l x, join_docs ts l sep = Some x -> P x) ->
  Forall P docs -> Forall P (merge_loop ts sep splits docs cur total).
Proof.
  intros P ts sep splits. induction splits as [|d rest IH];
    intros docs cur total HP Hdocs; simpl.
  - apply Forall_app. split; auto. apply opt_list_join_all; eauto.
  - match goal with |- context [if ?c then _ else _] => destruct c end.
    + destruct cur as [|c0 cur0]; [apply IH; auto|].
      match goal with |- context [pop_front ?a ?b ?c ?d ?e] =>
        destruct (pop_front a b c d e) end.
      apply IH; auto. apply Forall_app. split; auto.
      apply opt_list_join_all; eauto.
    + apply IH; auto.
Qed.

Lemma split_loop_all : forall (P : string -> Prop) ts sep recurse splits good final,
  (forall l x, join_docs ts l sep = Some x -> P x) ->
  Forall P final ->
  match recurse with
  | None => Forall (fun s => String.length s < _chunk_size ts \/ P s) splits
  | Some f => forall s, Forall P (f s)
  end ->
  Forall P (split_loop ts sep recurse splits good final).
Proof.
  intros P ts sep recurse splits. induction splits as [|s rest IH];
    intros good final HP Hfinal Hrec; simpl.
  - destruct good; auto.
    apply Forall_app. split; auto. apply merge_loop_all; auto.
  - assert (Hrec' : match recurse with
                    | None => Forall (fun s => String.length s < _chunk_size ts \/ P s) rest
                    | Some f => forall s, Forall P (f s)
                    end).
    { destruct recurse; auto. inversion Hrec; auto. }
    destruct (String.length s <? _chunk_size ts) eqn:Hs; [apply IH; auto|].
    assert (Hgood : Forall P match good with
                             | [] => final
                             | _ => final ++ merge_splits ts good sep
                             end%list).
    { destruct good; auto. apply Forall_app. split; auto. apply merge_loop_all; auto. }
    destruct recurse as [f|]; apply IH; auto; apply Forall_app; split; auto.
    inversion Hrec as [|? ? Hs' _]; subst. constructor; auto.
    destruct Hs' as [Hlt|Hp]; auto.
    apply Nat.ltb_lt in Hlt. rewrite Hlt in Hs. discriminate.
Qed.

Definition clean_chunk (c : string) : Prop := strip c = c /\ c <> "".

Lemma split_text_rec_clean : forall ts seps last_sep text,
  _keep_separator ts = true ->
  _strip_whitespace ts = true ->
  2 <= _chunk_size ts ->
  In "" seps ->
  Forall clean_chunk (split_text_rec ts seps last_sep text).
Proof.
  intros ts seps last_sep. induction seps as [|s rest IH];
    intros text Hkeep Hstrip Hcs Hin; simpl.
  - destruct Hin.
  - assert (HP : forall sep l x, join_docs ts l sep = Some x -> clean_chunk x).
    { intros sep l x Hj. exact (join_docs_stripped ts l sep x Hstrip Hj). }
    unfold split_with. rewrite Hkeep.
    destruct (String.eqb s "") eqn:Hs.
    + apply split_loop_all; eauto.
      unfold split_text_with_regex. simpl.
      apply Forall_filter_keep.
      eapply Forall_impl; [|apply chars_length]. simpl. intros a Ha. left. lia.
    + assert (Hin' : In "" rest).
      { destruct Hin as [Heq|Hin]; auto. subst. discriminate. }
      destruct (re_search s text).
      * destruct rest as [|r0 rs]; [destruct Hin'|].
        apply split_loop_all; eauto.
      * apply IH; auto.
Qed.

(** X11: with a chunk size of at least 2 (1000 in [create_rag_chain]), every
    chunk [create_rag_chain] stores is non-empty and has no leading or
    trailing whitespace. *)
Theorem split_documents_clean_chunks : forall chunk_size chunk_overlap pages,
  2 <= chunk_size ->
  Forall (fun c => strip (page_content c) = page_content c /\ page_content c <> "")
         (split_documents (RecursiveCharacterTextSplitter chunk_size chunk_overlap) pages).
Proof.
  intros cs ov pages Hcs. unfold split_documents.
  induction pages as [|d pages IH]; simpl; [constructor|].
  apply Forall_app. split; auto.
  apply Forall_map.
  apply (split_text_rec_clean (RecursiveCharacterTextSplitter cs ov)); simpl; auto 6.
Qed.

Lemma str_app_assoc : forall a b c : string, (a ++ b) ++ c = a ++ (b ++ c).
Proof. induction a as [|x a IH]; intros b c; simpl; [reflexivity | rewrite IH; reflexivity]. Qed.

Lemma str_app_nil_r : forall a : string, a ++ "" = a.
Proof. induction a as [|x a IH]; simpl; [reflexivity | rewrite IH; reflexivity]. Qed.

Lemma prefix_app : forall s t, prefix s t = true -> exists r, t = s ++ r.
Proof.
  induction s as [|c s IH]; intros t H; [exists t; reflexivity|].
  destruct t as [|c' t]; simpl in H; [discriminate|].
  destruct (ascii_dec c c') as [<-|]; [|discriminate].
  destruct (IH t H) as [r ->]. exists r. reflexivity.
Qed.

Lemma split_on_aux_skip : forall sep u r x,
  split_on_aux sep (u ++ r) (String.length u) x = split_on_aux sep r 0 x.
Proof. intros sep. induction u as [|c u IH]; intros r x; simpl; auto. Qed.

Lemma split_on_aux_nonempty : forall sep t k cur, split_on_aux sep t k cur <> [].
Proof.
  intros sep. induction t as [|c t IH]; intros k cur; cbn [split_on_aux]; [congruence|].
  destruct k as [|k]; [|apply IH].
  destruct (prefix sep (String c t)); [congruence | apply IH].
Qed.

Lemma concat_cons : forall sep a l,
  l <> [] -> String.concat sep (a :: l) = a ++ sep ++ String.concat sep l.
Proof. intros sep a [|b l] H; [contradiction | reflexivity]. Qed.

(** [re.split] pieces joined back with the separator give the text. *)
Lemma split_on_aux_concat : forall sep, sep <> "" ->
  forall n text cur, String.length text <= n ->
  String.concat sep (split_on_aux sep text 0 cur) = cur ++ text.
Proof.
  intros sep Hsep n. induction n as [|n IH]; intros text cur Hn.
  - destruct text; simpl in Hn; [|lia]. simpl. rewrite str_app_nil_r. reflexivity.
  - destruct text as [|c r]; cbn [split_on_aux].
    + rewrite str_app_nil_r. reflexivity.
    + destruct (prefix sep (String c r)) eqn:Hp.
      * destruct (prefix_app _ _ Hp) as [r' Hr'].
        destruct sep as [|c0 st]; [contradiction|].
        simpl in Hr'. inversion Hr'; subst.
        match goal with |- context [String.length (String ?a st) - 1] =>
          replace (String.length (String a st) - 1) with (String.length st) by (simpl; lia) end.
        rewrite split_on_aux_skip.
        rewrite concat_cons by apply split_on_aux_nonempty.
        rewrite IH.
        -- reflexivity.
        -- simpl in Hn. rewrite string_length_append in Hn. lia.
      * rewrite IH by (simpl in Hn; lia).
        rewrite str_app_assoc. reflexivity.
Qed.

Lemma concat_keep_separator : forall sep ps p0,
  String.concat "" (p0 :: map (fun p => sep ++ p) ps) = String.concat sep (p0 :: ps).
Proof.
  intros sep. induction ps as [|p1 ps IH]; intros p0; [reflexivity|].
  cbn [map]. rewrite concat_cons by congruence. rewrite IH.
  rewrite (concat_cons sep p0 (p1 :: ps)) by congruence. f_equal.
  destruct ps; simpl; [reflexivity|]. rewrite str_app_assoc. reflexivity.
Qed.

Fixpoint cat (l : list string) : string :=
  match l with [] => "" | s :: r => s ++ cat r end.

Lemma concat_empty_cat : forall l, String.concat "" l = cat l.
Proof.
  induction l as [|s [|t r] IH]; simpl; auto.
  - rewrite str_app_nil_r. reflexivity.
  - simpl in IH. rewrite IH. reflexivity.
Qed.

Lemma cat_filter_nonempty : forall l,
  cat (filter (fun s => negb (String.eqb s "")) l) = cat l.
Proof.
  induction l as [|s l IH]; simpl; auto.
  destruct (String.eqb_spec s ""); simpl; rewrite IH; [subst|]; reflexivity.
Qed.

Lemma cat_chars : forall t, cat (chars t) = t.
Proof. induction t as [|c t IH]; simpl; [|rewrite IH]; reflexivity. Qed.

(** [_split_text_with_regex] with [keep_separator] loses nothing: its
    pieces concatenate back to the text. *)
Lemma split_text_with_regex_cat : forall text sep,
  cat (split_text_with_regex text sep true) = text.
Proof.
  intros text sep. unfold split_text_with_regex.
  rewrite cat_filter_nonempty.
  destruct (String.eqb_spec sep "") as [->|Hsep]; [apply cat_chars|].
  pose proof (split_on_aux_concat sep Hsep (String.length text) text "" (le_n _)) as H.
  unfold split_on. destruct (split_on_aux sep text 0 "") as [|p0 ps]; [exact H|].
  rewrite <- concat_empty_cat, concat_keep_separator. exact H.
Qed.

Lemma sum_len_cat : forall l, sum_len l = String.length (cat l).
Proof. intros l. rewrite <- concat_empty_length, concat_empty_cat. reflexivity. Qed.

Lemma in_sum_len : forall x l, In x l -> String.length x <= sum_len l.
Proof.
  intros x. induction l as [|y l IH]; simpl; [contradiction|].
  intros [->|H]; [lia | specialize (IH H); lia].
Qed.

Lemma match_list_zero : forall (l : list string), match l with [] => 0 | _ => 0 end = 0.
Proof. intros [|? ?]; reflexivity. Qed.

Lemma merge_loop_fits : forall ts splits docs cur total,
  total = sum_len cur ->
  total + sum_len splits <= _chunk_size ts ->
  merge_loop ts "" splits docs cur total
  = (docs ++ opt_list (join_docs ts (cur ++ splits) ""))%list.
Proof.
  intros ts splits. induction splits as [|d rest IH]; intros docs cur total Ht Hle.
  - simpl. rewrite app_nil_r. reflexivity.
  - simpl. rewrite match_list_zero.
    replace (_chunk_size ts <? total + String.length d + 0) with false
      by (symmetry; apply Nat.ltb_ge; simpl in Hle; lia).
    rewrite match_pair_const, IH.
    + rewrite <- app_assoc. reflexivity.
    + rewrite sum_len_app. simpl. lia.
    + simpl in Hle. lia.
Qed.

Lemma split_loop_fits : forall ts recurse splits good final,
  Forall (fun s => String.length s < _chunk_size ts) splits ->
  split_loop ts "" recurse splits good final
  = match (good ++ splits)%list with
    | [] => final
    | _ => (final ++ merge_splits ts (good ++ splits) "")%list
    end.
Proof.
  intros ts recurse splits. induction splits as [|s rest IH];
    intros good final Hs; simpl.
  - rewrite app_nil_r. reflexivity.
  - inversion Hs as [|? ? Hlt Hrest]; subst.
    apply Nat.ltb_lt in Hlt. rewrite Hlt, IH by exact Hrest.
    rewrite <- app_assoc. simpl.
    destruct (good ++ s :: rest)%list eqn:Hg; [destruct good; discriminate | reflexivity].
Qed.

Lemma join_docs_cat : forall ts l,
  join_docs ts l "" = join_docs ts [cat l] "".
Proof. intros ts l. unfold join_docs. rewrite concat_empty_cat. reflexivity. Qed.

Lemma split_with_short : forall ts sep recurse text,
  _keep_separator ts = true ->
  String.length text < _chunk_size ts ->
  split_with ts sep recurse text = opt_list (join_docs ts [text] "").
Proof.
  intros ts sep recurse text Hkeep Hlen. unfold split_with. rewrite Hkeep.
  remember (split_text_with_regex text sep true) as splits eqn:Hspl.
  assert (Hcat : cat splits = text) by (subst splits; apply split_text_with_regex_cat).
  assert (Hsum : sum_len splits = String.length text)
    by (rewrite sum_len_cat, Hcat; reflexivity).
  rewrite split_loop_fits.
  - cbn [app]. destruct splits as [|p ps].
    + simpl in Hcat. subst text. unfold join_docs. simpl.
      destruct (_strip_whitespace ts); reflexivity.
    + unfold merge_splits. rewrite merge_loop_fits by (simpl in *; lia).
      rewrite join_docs_cat. cbn [app]. rewrite Hcat. reflexivity.
  - apply Forall_forall. intros x Hx. apply in_sum_len in Hx. lia.
Qed.

Lemma split_text_rec_short : forall ts seps last_sep text,
  _keep_separator ts = true ->
  String.length text < _chunk_size ts ->
  split_text_rec ts seps last_sep text = opt_list (join_docs ts [text] "").
Proof.
  intros ts seps last_sep text Hkeep Hlen.
  induction seps as [|s rest IH]; simpl; [apply split_with_short; auto|].
  destruct (String.eqb s ""); [apply split_with_short; auto|].
  destruct (re_search s text); [apply split_with_short; auto | exact IH].
Qed.

(** X12: pages shorter than [chunk_size] characters are not split: each
    becomes one chunk, its text with the surrounding whitespace removed and
    its metadata kept, and blank pages give no chunk. *)
Theorem split_documents_short_pages : forall chunk_size chunk_overlap pages,
  Forall (fun d => String.length (page_content d) < chunk_size) pages ->
  split_documents (RecursiveCharacterTextSplitter chunk_size chunk_overlap) pages
  = map (fun d => mkDoc (strip (page_content d)) (metadata d))
        (filter (fun d => negb (String.eqb (strip (page_content d)) "")) pages).
Proof.
  intros cs ov pages Hshort. unfold split_documents.
  induction pages as [|d pages IH]; [reflexivity|].
  inversion Hshort as [|? ? Hd Hrest]; subst.
  cbn [flat_map filter]. rewrite IH by exact Hrest. unfold split_text.
  rewrite split_text_rec_short by (simpl; auto).
  unfold join_docs. cbn [_strip_whitespace RecursiveCharacterTextSplitter String.concat].
  destruct (String.eqb (strip (page_content d)) ""); reflexivity.
Qed.

(** ** Concrete runs: witnesses and counterexamples *)

Example startup_ready :
  fst (app_startup ready_backend []) = Ok (Some qa0).
Proof. vm_compute. reflexivity. Qed.

Example submit_answers :
  fst (update_response ready_backend (Some qa0) (Some 1) (Some revenue_question) [])
  = Ok (set (P "Revenue grew 20% in North America." None),
        set "Revenue grew 20% in North America.", "").
Proof. vm_compute. reflexivity. Qed.

Lemma failed_pipeline_answers_degraded_witness :
  rag_chain failed_dashboard = None /\
  ((forall n q log0, update_response ready_backend (rag_chain failed_dashboard) n q log0
                     = (Ok degraded_response, log0))
   /\ exists st' outs extra,
        run ready_backend failed_dashboard
            [TypeQuestion revenue_question; ClickSubmit (Some 1); ClickDownload (Some 1)] []
        = (Ok (st', outs), ([] ++ extra)%list)
        /\ forallb no_model_call extra = true
        /\ rag_chain st' = None
        /\ Forall2 (fun ev o => is_submit ev = true -> o = OutResponse degraded_response)
                   [TypeQuestion revenue_question; ClickSubmit (Some 1); ClickDownload (Some 1)]
                   outs).
Proof.
  split; [reflexivity|].
  apply (failed_pipeline_answers_degraded ready_backend). reflexivity.
Defined.

(** C2 (counterexample): a [KeyboardInterrupt] raised during retrieval is not
    an [Exception]: [update_response] lets it through, Dash reports a callback
    error and no error-describing text is displayed or stored. *)
Lemma query_interrupt_counterexample :
  step interrupted_backend (ready_dashboard (Some revenue_question)) (ClickSubmit (Some 1)) []
  = (Ok (ready_dashboard (Some revenue_question), OutError KeyboardInterrupt),
     [CallSearch revenue_question 4]).
Proof. vm_compute. reflexivity. Qed.

Lemma query_failure_reported_witness :
  (rag_chain (ready_dashboard (Some revenue_question)) = Some qa0
   /\ question_input (ready_dashboard (Some revenue_question)) = Some revenue_question
   /\ revenue_question <> ""
   /\ fst (RetrievalQA_invoke failing_query_backend qa0 revenue_question []) = Exc endpoint_error
   /\ isinstance endpoint_error "Exception" = true)
  /\ let msg := "An error occurred: " ++ exn_str endpoint_error in
     exists st1 log1,
       step failing_query_backend (ready_dashboard (Some revenue_question)) (ClickSubmit (Some 1)) []
       = (Ok (st1, OutResponse (set (P msg (Some "red")), set msg, "")), log1)
       /\ rag_chain st1 = Some qa0
       /\ rag_response_store st1 = Some msg
       /\ observed (run failing_query_backend st1
                        [TypeQuestion "How did North America perform?"; ClickSubmit (Some 2)] [])
          = observed (run failing_query_backend (ready_dashboard (Some revenue_question))
                          [TypeQuestion "How did North America perform?"; ClickSubmit (Some 2)] []).
Proof.
  split.
  - repeat split; try reflexivity. discriminate.
  - apply (query_failure_reported failing_query_backend
             (ready_dashboard (Some revenue_question)) qa0 (Some 1) revenue_question
             endpoint_error []); try reflexivity. discriminate.
Defined.

(** C3 (counterexample): with the embedding endpoint unreachable while the
    index is built, the [ValueError] matches neither [except] clause and
    propagates out of the module: the app never reaches the failed state. *)
Lemma startup_unreachable_counterexample :
  fst (app_startup unreachable_backend []) = Exc endpoint_error
  /\ fst (app_startup unreachable_backend []) <> Ok None.
Proof. vm_compute. split; [reflexivity | discriminate]. Qed.

(** C4 (counterexample): the answer operation propagates a
    [KeyboardInterrupt], and for an empty question it returns no text. *)
Lemma answer_boundary_counterexample :
  fst (update_response interrupted_backend (Some qa0) (Some 1) (Some revenue_question) [])
  = Exc KeyboardInterrupt
  /\ fst (update_response ready_backend (Some qa0) (Some 1) (Some "") [])
     = Ok (no_update, no_update, "").
Proof. vm_compute. split; reflexivity. Qed.



Lemma empty_question_keeps_response_witness :
  (rag_chain (ready_dashboard (Some "")) = Some qa0
   /\ truthy (question_input (ready_dashboard (Some ""))) = false)
  /\ step ready_backend (ready_dashboard (Some "")) (ClickSubmit (Some 3)) []
     = (Ok (mkDashboard (rag_chain (ready_dashboard (Some "")))
                        (main_graph (ready_dashboard (Some "")))
                        (rag_response (ready_dashboard (Some "")))
                        (rag_response_store (ready_dashboard (Some ""))) (Some ""),
            OutResponse (no_update, no_update, "")), []).
Proof.
  split; [split; reflexivity|].
  apply (empty_question_keeps_response ready_backend _ qa0); reflexivity.
Defined.

Lemma download_requires_stored_answer_witness :
  exists st outs log',
    run ready_backend (init_dashboard (Some qa0) fig0)
        [ClickDownload (Some 1); TypeQuestion revenue_question; ClickSubmit (Some 1)] []
    = (Ok (st, outs), log')
    /\ (stored_texts outs = [] ->
        download_pdf ready_backend (Some 2) (main_graph st) (rag_response_store st) []
        = (Ok no_update, []))
    /\ (download_pdf ready_backend (Some 2) (main_graph st) (rag_response_store st) []
        <> (Ok no_update, []) ->
        exists s, rag_response_store st = Some s /\ s <> "" /\ In s (stored_texts outs)).
Proof. apply (download_requires_stored_answer ready_backend). Defined.

Lemma answer_from_retrieved_docs_witness :
  (revenue_question <> ""
   /\ similarity_search ready_backend (qa_store qa0) revenue_question (qa_k qa0) = Ok [revenue_page]
   /\ Ollama_generate ready_backend (qa_llm qa0) (stuff_prompt ready_backend [revenue_page] revenue_question)
      = Ok "Revenue grew 20% in North America.")
  /\ update_response ready_backend (Some qa0) (Some 1) (Some revenue_question) []
     = (Ok (set (P "Revenue grew 20% in North America." None),
            set "Revenue grew 20% in North America.", ""),
        ([] ++ [CallSearch revenue_question (qa_k qa0);
                CallLLM (stuff_prompt ready_backend [revenue_page] revenue_question)])%list).
Proof.
  split; [split; [discriminate | split; reflexivity]|].
  apply (answer_from_retrieved_docs ready_backend qa0 (Some 1) revenue_question []
           [revenue_page] "Revenue grew 20% in North America."); [discriminate | reflexivity | reflexivity].
Defined.

Lemma retrieval_failure_skips_generation_witness :
  (revenue_question <> ""
   /\ similarity_search failing_query_backend (qa_store qa0) revenue_question (qa_k qa0)
      = Exc endpoint_error)
  /\ update_response failing_query_backend (Some qa0) (Some 1) (Some revenue_question) []
     = (if isinstance endpoint_error "Exception"
        then Ok (set (P ("An error occurred: " ++ exn_str endpoint_error) (Some "red")),
                 set ("An error occurred: " ++ exn_str endpoint_error), "")
        else Exc endpoint_error,
        ([] ++ [CallSearch revenue_question (qa_k qa0)])%list).
Proof.
  split; [split; [discriminate | reflexivity]|].
  apply (retrieval_failure_skips_generation failing_query_backend qa0 (Some 1) revenue_question []
           endpoint_error); [discriminate | reflexivity].
Defined.

Lemma startup_error_line_witness :
  startup_body unreachable_backend []
  = (Exc endpoint_error, [CallImport "rag_setup"; CallLoad DOCUMENT_PATH; CallBuild 1])
  /\ app_startup unreachable_backend []
     = if isinstance endpoint_error "FileNotFoundError" then
         (Ok None, ([CallImport "rag_setup"; CallLoad DOCUMENT_PATH; CallBuild 1]
                    ++ [CallStderr "ERROR: Document 'external_doc.pdf' not found. Please add it to the project directory."])%list)
       else if isinstance endpoint_error "ImportError" then
         (Ok None, ([CallImport "rag_setup"; CallLoad DOCUMENT_PATH; CallBuild 1]
                    ++ [CallStderr "ERROR: rag_setup.py not found. Please ensure it's in the project directory."])%list)
       else (Exc endpoint_error, [CallImport "rag_setup"; CallLoad DOCUMENT_PATH; CallBuild 1]).
Proof.
  split; [vm_compute; reflexivity|].
  apply (startup_error_line unreachable_backend [] endpoint_error).
  vm_compute. reflexivity.
Defined.

Lemma import_failure_no_load_witness :
  import_rag_setup missing_module_backend = Some (ModuleNotFoundError "No module named 'rag_setup'")
  /\ startup_body missing_module_backend []
     = (Exc (ModuleNotFoundError "No module named 'rag_setup'"), ([] ++ [CallImport "rag_setup"])%list).
Proof.
  split; [reflexivity|].
  apply (import_failure_no_load missing_module_backend []). reflexivity.
Defined.

Lemma download_builds_report_witness :
  "Revenue grew" <> ""
  /\ download_pdf ready_backend (Some 1) fig0 (Some "Revenue grew") []
     = match pio_to_image ready_backend fig0 with
       | Exc e => (Exc e, ([] ++ [CallToImage])%list)
       | Ok img =>
           match pdf_report ready_backend img "Revenue grew" with
           | Ok pdf => (Ok (set (pdf, "analysis_report.pdf")),
                        ([] ++ [CallToImage; CallPdfReport])%list)
           | Exc e => (Exc e, ([] ++ [CallToImage; CallPdfReport])%list)
           end
       end.
Proof.
  split; [discriminate|].
  apply (download_builds_report ready_backend 1 fig0 "Revenue grew" []). discriminate.
Defined.


Lemma no_submit_keeps_response_witness :
  forallb (fun ev => negb (is_submit ev))
          [TypeQuestion "How did Europe perform?"; ClickDownload (Some 1)] = true
  /\ exists st' outs log',
       run ready_backend (ready_dashboard (Some revenue_question))
           [TypeQuestion "How did Europe perform?"; ClickDownload (Some 1)] []
       = (Ok (st', outs), log')
       /\ rag_response st' = Text "Enter a question and click 'Submit'."
       /\ rag_response_store st' = None
       /\ rag_chain st' = Some qa0.
Proof.
  split; [reflexivity|].
  do 3 eexists. split; [reflexivity|].
  eapply (no_submit_keeps_response ready_backend (ready_dashboard (Some revenue_question))
           [TypeQuestion "How did Europe perform?"; ClickDownload (Some 1)] []);
    reflexivity.
Defined.

Lemma display_matches_store_always_witness :
  exists st outs log',
    run ready_backend (init_dashboard (Some qa0) fig0)
        [TypeQuestion revenue_question; ClickSubmit (Some 1); ClickDownload (Some 1)] []
    = (Ok (st, outs), log')
    /\ match rev (stored_texts outs) with
       | [] => rag_response st = Text "Enter a question and click 'Submit'."
               /\ rag_response_store st = None
       | s :: _ => shows_stored st s
       end.
Proof.
  do 3 eexists. split; [reflexivity|].
  eapply (display_matches_store_always ready_backend (Some qa0) fig0
           [TypeQuestion revenue_question; ClickSubmit (Some 1); ClickDownload (Some 1)] []).
  reflexivity.
Defined.

Lemma rag_setup_main_answer_witness :
  let texts := split_documents (RecursiveCharacterTextSplitter 1000 200) [revenue_page] in
  let q := "What was the main topic of the document?" in
  (PyPDFLoader_load ready_backend "external_doc.pdf" = Ok [revenue_page]
   /\ Chroma_from_documents ready_backend texts "llama3.1" = Ok texts
   /\ similarity_search ready_backend texts q 4 = Ok texts
   /\ Ollama_generate ready_backend "llama3.1" (stuff_prompt ready_backend texts q)
      = Ok "Revenue grew 20% in North America.")
  /\ rag_setup_main ready_backend (fun _ => true) []
     = (Ok "Revenue grew 20% in North America.",
        ([] ++ [CallLoad "external_doc.pdf"; CallBuild (List.length texts);
                CallSearch q 4; CallLLM (stuff_prompt ready_backend texts q)])%list).
Proof.
  cbv zeta. split; [repeat split; vm_compute; reflexivity|].
  apply (rag_setup_main_answer ready_backend (fun _ => true) [] [revenue_page]
           (split_documents (RecursiveCharacterTextSplitter 1000 200) [revenue_page])
           (split_documents (RecursiveCharacterTextSplitter 1000 200) [revenue_page])
           "Revenue grew 20% in North America.");
    vm_compute; reflexivity.
Defined.

Lemma split_documents_clean_chunks_witness :
  2 <= 1000
  /\ Forall (fun c => strip (page_content c) = page_content c /\ page_content c <> "")
            (split_documents (RecursiveCharacterTextSplitter 1000 200)
                             [pdf_page two_paragraphs "0"; pdf_page "  hello world " "1"]).
Proof.
  split; [lia|].
  apply (split_documents_clean_chunks 1000 200). lia.
Defined.

Lemma split_documents_short_pages_witness :
  Forall (fun d => String.length (page_content d) < 1000) [revenue_page; pdf_page "   " "1"]
  /\ split_documents (RecursiveCharacterTextSplitter 1000 200) [revenue_page; pdf_page "   " "1"]
     = map (fun d => mkDoc (strip (page_content d)) (metadata d))
           (filter (fun d => negb (String.eqb (strip (page_content d)) ""))
                   [revenue_page; pdf_page "   " "1"]).
Proof.
  split; [repeat constructor; simpl; lia|].
  apply (split_documents_short_pages 1000 200).
  repeat constructor; simpl; lia.
Defined.

Lemma no_submit_no_model_call_witness :
  forallb (fun ev => negb (is_submit ev))
          [TypeQuestion revenue_question; ClickDownload (Some 1)] = true
  /\ extends no_model_call
       (run ready_backend (ready_dashboard None)
            [TypeQuestion revenue_question; ClickDownload (Some 1)]).
Proof.
  split; [reflexivity|].
  apply (no_submit_no_model_call ready_backend (ready_dashboard None)
           [TypeQuestion revenue_question; ClickDownload (Some 1)]).
  reflexivity.
Defined.

Lemma submit_clears_question_witness :
  exists st' o log',
    step ready_backend (ready_dashboard (Some revenue_question)) (ClickSubmit (Some 1)) []
    = (Ok (st', o), log')
    /\ match o with
       | OutError _ => st' = ready_dashboard (Some revenue_question)
       | _ => question_input st' = Some ""
       end.
Proof.
  do 3 eexists. split; [reflexivity|].
  eapply (submit_clears_question ready_backend (ready_dashboard (Some revenue_question)) (Some 1) []).
  reflexivity.
Defined.

Lemma startup_success_witness :
  let texts := split_documents (RecursiveCharacterTextSplitter 1000 200) [revenue_page] in
  (import_rag_setup ready_backend = None
   /\ PyPDFLoader_load ready_backend DOCUMENT_PATH = Ok [revenue_page]
   /\ Chroma_from_documents ready_backend texts "llama3.1" = Ok texts)
  /\ app_startup ready_backend []
     = (Ok (Some (mkQA "llama3.1" texts 4)),
        ([] ++ [CallImport "rag_setup"; CallLoad DOCUMENT_PATH;
                CallBuild (List.length texts)])%list).
Proof.
  cbv zeta. split; [repeat split; vm_compute; reflexivity|].
  apply (startup_success ready_backend [] [revenue_page]
           (split_documents (RecursiveCharacterTextSplitter 1000 200) [revenue_page]));
    vm_compute; reflexivity.
Defined.

